(** * SmartStudy AI mobile app: the exam and chat client workflows

    A shallow embedding of the client-side logic of

      - [src/services/examApi.ts]   (module [examApi])
      - [src/services/chatApi.ts]   (module [chatApi])
      - [src/components/ExamScreen.tsx]  (module [ExamScreen])
      - [src/components/ChatScreen.tsx]  (module [ChatScreen])

    followed by the theorems that relate it to the written specification.

    Conventions of the embedding.

    - A JavaScript string is a [string]; every [ascii] stands for one UTF-16
      code unit of the range 0..255, on which [trim] and [toLowerCase] are
      written out in full.
    - A JavaScript number is a [number]: NaN, the two infinities, or a finite
      value kept as an exact rational.  Only comparisons, [Math.max] and
      [Number.isFinite] are used by the code, and they are exact on doubles.
    - [null] and [undefined] are both [None]; the code only ever tests them
      through truthiness, [?.] and [??].
    - An awaited promise is a [completion]: it is fulfilled with a value or it
      is rejected with a [thrown] value.  What the network answers is an
      argument of the function that awaits it.
    - Response payloads are read at their declared TypeScript types: the
      [as T] casts of the source are trusted. *)

From Stdlib Require Import String Ascii List ZArith QArith Bool Arith Lia.
From Stdlib Require Import Numbers.DecimalString Numbers.DecimalNat.
Import ListNotations.

Local Open Scope string_scope.
Local Open Scope list_scope.
Local Close Scope Q_scope.

(* ===================================================================== *)
(** * JavaScript values used by the four source files *)
(* ===================================================================== *)

Module JS.

(** ** Strings *)

(** Truthiness of a string: every string but the empty one. *)
Definition truthy (s : string) : bool :=
  match s with
  | EmptyString => false
  | String _ _ => true
  end.

(** [a || b] where [a] may be missing. *)
Definition orElse (a : option string) (b : string) : string :=
  match a with
  | Some s => if truthy s then s else b
  | None => b
  end.

(** [a || null] for a string [a]. *)
Definition orNull (a : string) : option string :=
  if truthy a then Some a else None.

(** Truthiness of [a] where [a] may be missing. *)
Definition present (a : option string) : bool :=
  match a with
  | Some s => truthy s
  | None => false
  end.

(** WhiteSpace and LineTerminator code units below 256:
    TAB, LF, VT, FF, CR, SP and NBSP. *)
Definition isWhiteSpace (c : ascii) : bool :=
  let n := nat_of_ascii c in
  (((9 <=? n) && (n <=? 13)) || (n =? 32) || (n =? 160))%nat.

Fixpoint trimStart (s : string) : string :=
  match s with
  | EmptyString => EmptyString
  | String c rest => if isWhiteSpace c then trimStart rest else s
  end.

Fixpoint trimEnd (s : string) : string :=
  match s with
  | EmptyString => EmptyString
  | String c rest =>
      match trimEnd rest with
      | EmptyString => if isWhiteSpace c then EmptyString
                       else String c EmptyString
      | kept => String c kept
      end
  end.

(** [String.prototype.trim] *)
Definition trim (s : string) : string := trimEnd (trimStart s).

(** Lower-case mapping of one code unit below 256: A..Z and the
    Latin-1 capitals U+00C0..U+00DE (U+00D7 is the multiplication sign). *)
Definition lowerUnit (c : ascii) : ascii :=
  let n := nat_of_ascii c in
  if (((65 <=? n) && (n <=? 90))
      || ((192 <=? n) && (n <=? 222) && negb (n =? 215)))%nat
  then ascii_of_nat (n + 32)
  else c.

(** [String.prototype.toLowerCase] *)
Fixpoint toLowerCase (s : string) : string :=
  match s with
  | EmptyString => EmptyString
  | String c rest => String (lowerUnit c) (toLowerCase rest)
  end.

(** [s.startsWith(p)] *)
Fixpoint startsWith (s p : string) {struct p} : bool :=
  match p with
  | EmptyString => true
  | String a p' =>
      match s with
      | EmptyString => false
      | String b s' => Ascii.eqb a b && startsWith s' p'
      end
  end.

(** ** Numbers *)

Inductive number : Type :=
| NaN
| Infinity (negative : bool)
| Finite (q : Q).

Definition int (z : Z) : number := Finite (inject_Z z).

(** [Number.isFinite] *)
Definition isFinite (n : number) : bool :=
  match n with
  | Finite _ => true
  | _ => false
  end.

(** [Math.max(a, b)]: NaN if either argument is NaN, else the larger. *)
Definition Math_max (a b : number) : number :=
  match a, b with
  | NaN, _ | _, NaN => NaN
  | Infinity false, _ | _, Infinity false => Infinity false
  | Infinity true, y => y
  | x, Infinity true => x
  | Finite x, Finite y => if Qle_bool x y then Finite y else Finite x
  end.

(** [a <= b] on numbers, false as soon as a NaN is involved. *)
Definition le (a b : number) : Prop :=
  match a, b with
  | NaN, _ | _, NaN => False
  | Infinity true, _ => True
  | _, Infinity false => True
  | Finite x, Finite y => Qle x y
  | _, _ => False
  end.

(** ** Promises and exceptions *)

(** What a [throw] or a rejected promise carries. [ApiError] is the class
    of [examApi.ts]; [Error] is any other instance of [Error] (the
    [TypeError] of a failed [fetch], the [Error] of [chatApi.ts]);
    [NotAnError] is any value that is not an instance of [Error]. *)
Inductive thrown : Type :=
| ApiError (status : Z) (message : string)
| Error (name message : string)
| NotAnError.

Inductive completion (A : Type) : Type :=
| Returned (a : A)
| Raised (e : thrown).
Arguments Returned {A} a.
Arguments Raised {A} e.

(** Sequencing of awaited steps, and [try { ... } catch { ... }]. *)
Definition bind {A B : Type} (c : completion A) (k : A -> completion B)
  : completion B :=
  match c with
  | Returned a => k a
  | Raised e => Raised e
  end.

Definition try_catch {A : Type} (c : completion A)
  (handler : thrown -> completion A) : completion A :=
  match c with
  | Returned a => Returned a
  | Raised e => handler e
  end.

(** Decimal rendering of an integer inside a template literal. *)
Definition String_of_int (z : Z) : string :=
  NilEmpty.string_of_int (Z.to_int z).

Definition String_of_nat (n : nat) : string :=
  NilEmpty.string_of_uint (Nat.to_uint n).

(** ** HTTP responses as [fetch] delivers them *)

Record Response : Type := mkResponse {
  status : Z;
  statusText : string;
  body : string
}.

(** [response.ok]: the status is in the range 200..299. *)
Definition ok (r : Response) : bool :=
  (200 <=? status r)%Z && (status r <=? 299)%Z.


(** [response.json()]: rejects with a [SyntaxError] on text that is not
    JSON (the message of that error is the engine's own). *)
Definition SyntaxError : thrown := Error "SyntaxError" "JSON Parse error".

Definition json {T : Type} (reader : string -> option T) (r : Response)
  : completion T :=
  match reader (body r) with
  | Some v => Returned v
  | None => Raised SyntaxError
  end.

(** The [TypeError] a [fetch] rejects with when the transport fails. *)
Definition NetworkFailure : thrown := Error "TypeError" "Network request failed".

End JS.
Export JS.

(** The built-in conversions between strings and numbers, and the JSON
    reader, are not part of the repository. The first two are taken as they
    are by every definition that needs them; a JSON reader is taken at each
    declared payload type and answers [None] on text that is not JSON. *)
Record Builtins : Type := mkBuiltins {
  Number : string -> number;          (* Number(value) *)
  String_of : number -> string        (* String(value), template literals *)
}.

Definition JSON_parse (T : Type) : Type := string -> option T.

Declare Scope js_scope.
Delimit Scope js_scope with js.
Notation "x <- c ;; k" := (bind c (fun x => k))
  (at level 61, c at next level, right associativity) : js_scope.

(* ===================================================================== *)
(** * src/services/examApi.ts *)
(* ===================================================================== *)

Module examApi.

Inductive QuestionType : Type := MultipleChoice | TrueFalse | ShortAnswer.
Inductive QuestionDifficulty : Type := Easy | Medium | Hard.
Inductive ExamStatus : Type := InProgress | Completed | Cancelled.

Module ExamTemplateRequest.
Record t : Type := mk {
  name : string;
  subject : string;
  chapter : string;
  totalQuestions : number;
  durationMinutes : number;
  adaptiveEnabled : bool
}.
End ExamTemplateRequest.

(** [ExamTemplateResponse extends ExamTemplateRequest] *)
Module ExamTemplateResponse.
Record t : Type := mk {
  name : string;
  subject : string;
  chapter : string;
  totalQuestions : number;
  durationMinutes : number;
  adaptiveEnabled : bool;
  id : number;
  createdAt : string
}.
End ExamTemplateResponse.

Module ExamOption.
Record t : Type := mk {
  optionId : number;
  optionText : string
}.
End ExamOption.

Module ExamQuestion.
Record t : Type := mk {
  id : number;
  subject : string;
  chapter : string;
  topic : string;
  text : string;
  type : QuestionType;
  difficulty : QuestionDifficulty;
  options : list ExamOption.t
}.
End ExamQuestion.

Module StartExamRequest.
Record t : Type := mk {
  studentId : string;
  examTemplateId : number
}.
End StartExamRequest.

Module StartExamResponse.
Record t : Type := mk {
  attemptId : number;
  template : ExamTemplateResponse.t;
  firstQuestion : ExamQuestion.t
}.
End StartExamResponse.

Module SubmitAnswerRequest.
Record t : Type := mk {
  questionId : number;
  selectedOptionId : option number;
  freeTextAnswer : option string;
  timeTakenSeconds : number
}.
End SubmitAnswerRequest.

Module DifficultyStats.
Record t : Type := mk {
  attempted : number;
  correct : number;
  accuracy : number
}.
End DifficultyStats.

Module DifficultyBreakdown.
Record t : Type := mk {
  Easy : DifficultyStats.t;
  Medium : DifficultyStats.t;
  Hard : DifficultyStats.t
}.
End DifficultyBreakdown.

Module CurrentStats.
Record t : Type := mk {
  answeredCount : number;
  correctCount : number;
  wrongCount : number;
  currentAccuracy : number;
  difficultyBreakdown : DifficultyBreakdown.t
}.
End CurrentStats.

Module SubmitAnswerResponse.
Record t : Type := mk {
  isCorrect : option bool;
  isCompleted : bool;
  nextQuestion : option ExamQuestion.t;
  currentStats : CurrentStats.t
}.
End SubmitAnswerResponse.

Module ExamSummaryAnswerLogEntry.
Record t : Type := mk {
  questionId : number;
  questionText : string;
  selectedOptionId : option number;
  correctOptionId : option number;
  isCorrect : option bool;
  timeTakenSeconds : number
}.
End ExamSummaryAnswerLogEntry.

Module ExamSummaryResponse.
Record t : Type := mk {
  attemptId : number;
  studentId : string;
  template : ExamTemplateResponse.t;
  scorePercent : number;
  correctCount : number;
  wrongCount : number;
  totalQuestions : number;
  startedAt : string;
  completedAt : string;
  status : ExamStatus;
  perDifficultyStats : DifficultyBreakdown.t;
  answerLog : list ExamSummaryAnswerLogEntry.t
}.
End ExamSummaryResponse.

Module ExamHistoryEntry.
Record t : Type := mk {
  attemptId : number;
  studentId : string;
  examTemplateId : number;
  examName : string;
  subject : string;
  chapter : string;
  scorePercent : number;
  correctCount : number;
  wrongCount : number;
  totalQuestions : number;
  status : ExamStatus;
  startedAt : string;
  completedAt : string
}.
End ExamHistoryEntry.

(** The body of an error response, at the type the source reads it:
    [{ message?: string; error?: string }]. *)
Module ErrorBody.
Record t : Type := mk {
  message : option string;
  error : option string
}.
End ErrorBody.

(** What [parseJson] and [request] hand back at type [T]: the literal
    [{} as T], or the value read from the body. The two are told apart
    here by where they come from; a body that reads as an empty object is
    [Parsed], though JavaScript gives the caller the same value for both. *)
Inductive payload (T : Type) : Type :=
| EmptyObject
| Parsed (v : T).
Arguments EmptyObject {T}.
Arguments Parsed {T} v.

(** [body?.message] and [body?.error] on what [parseJson] returned. *)
Definition message_of (b : payload ErrorBody.t) : option string :=
  match b with
  | EmptyObject => None
  | Parsed v => ErrorBody.message v
  end.

Definition error_of (b : payload ErrorBody.t) : option string :=
  match b with
  | EmptyObject => None
  | Parsed v => ErrorBody.error v
  end.

Section Request.

Variable T : Type.
Variable parse : JSON_parse T.
Variable parseError : JSON_parse ErrorBody.t.

(** [async function parseJson<T>(response)] *)
Definition parseJson {A : Type} (reader : JSON_parse A) (response : Response)
  : completion (payload A) :=
  let raw := body response in
  if negb (truthy raw) then Returned EmptyObject
  else
    match reader raw with
    | Some v => Returned (Parsed v)
    | None =>
        Raised (ApiError (status response) ("Failed to parse JSON: " ++ raw))
    end.

(** [async function request<T>(url, options)]; [fetched] is what
    [await fetch(url, ...)] completes with. *)
Definition request (fetched : completion Response) : completion (payload T) :=
  match fetched with
  | Raised e => Raised e
  | Returned response =>
      if negb (ok response) then
        let message := orElse (Some (statusText response)) "Request failed" in
        let message :=
          match parseJson parseError response with
          | Returned body =>
              orElse (message_of body) (orElse (error_of body) message)
          | Raised _ => message   (* Body was not JSON, keep default message. *)
          end in
        Raised (ApiError (status response) message)
      else if (status response =? 204)%Z then Returned EmptyObject
      else parseJson parse response
  end.

End Request.

End examApi.

(* ===================================================================== *)
(** * src/services/chatApi.ts *)
(* ===================================================================== *)

Module chatApi.

Module SendChatRequest.
Record t : Type := mk {
  question : string;
  sessionId : option string
}.
End SendChatRequest.

(** [followUpQuestion] is not declared by the interface of the source, but
    [ChatScreen.tsx] reads it from the response. *)
Module SendChatResponse.
Record t : Type := mk {
  status : option string;
  sessionId : option string;
  question : option string;
  reply : option string;
  timestamp : option string;
  error : option string;
  answer : option string;
  followUpQuestion : option string
}.
End SendChatResponse.

Module ChatHistoryItem.
Record t : Type := mk {
  id : option (number + string);
  message : string;
  reply : option string;
  timestamp : option string
}.
End ChatHistoryItem.

(** [messages] is [None] when the field is missing or is not an array. *)
Module ChatHistoryResponse.
Record t : Type := mk {
  status : option string;
  sessionId : option string;
  count : option number;
  messages : option (list ChatHistoryItem.t)
}.
End ChatHistoryResponse.

Module MostRecentSessionResponse.
Record t : Type := mk {
  status : option string;
  sessionId : option string
}.
End MostRecentSessionResponse.

Section Calls.

Variable parseSend : JSON_parse SendChatResponse.t.
Variable parseMostRecent : JSON_parse MostRecentSessionResponse.t.
Variable parseHistory : JSON_parse ChatHistoryResponse.t.

Local Open Scope js_scope.

(** [{ reply: raw }] *)
Definition replyOnly (raw : string) : SendChatResponse.t :=
  SendChatResponse.mk None None None (Some raw) None None None None.

(** [export async function sendChatMessage(payload)] *)
Definition sendChatMessage (fetched : completion Response)
  : completion SendChatResponse.t :=
  response <- fetched ;;
  if negb (ok response) then
    Raised (Error "Error"
      ("Failed to send chat message (" ++ String_of_int (status response) ++ ")"))
  else
    let raw := body response in
    match parseSend raw with
    | Some v => Returned v
    | None => Returned (replyOnly raw)
    end.

(** [export async function fetchMostRecentSessionId()] *)
Definition fetchMostRecentSessionId (fetched : completion Response)
  : completion (option string) :=
  try_catch
    (response <- fetched ;;
     if negb (ok response) then Returned None
     else
       data <- json parseMostRecent response ;;
       if match MostRecentSessionResponse.status data with
          | Some st => (st =? "success")%string
          | None => false
          end && present (MostRecentSessionResponse.sessionId data)
       then Returned (MostRecentSessionResponse.sessionId data)
       else Returned (MostRecentSessionResponse.sessionId data))
    (fun _ => Returned None).

(** [export async function fetchChatHistory(sessionId, limit = 20)] *)
Definition fetchChatHistory (fetched : completion Response)
  : completion (list ChatHistoryItem.t) :=
  response <- fetched ;;
  if negb (ok response) then
    Raised (Error "Error"
      ("Failed to fetch chat history (" ++ String_of_int (status response) ++ ")"))
  else
    data <- json parseHistory response ;;
    match ChatHistoryResponse.messages data with
    | Some items => Returned items
    | None => Returned []
    end.

End Calls.

End chatApi.

(* ===================================================================== *)
(** * src/components/ExamScreen.tsx *)
(* ===================================================================== *)

Module ExamScreen.

Import examApi.

Module LoadingState.
Record t : Type := mk {
  template : option bool;
  start : option bool;
  answer : option bool;
  summary : option bool;
  history : option bool
}.
End LoadingState.

Module AnswerState.
Record t : Type := mk {
  selectedOptionId : string;
  freeTextAnswer : string;
  timeTakenSeconds : string
}.
End AnswerState.

Module StartForm.
Record t : Type := mk {
  studentId : string;
  examTemplateId : string
}.
End StartForm.

(** The calls into [examApi], with the arguments they are given. *)
Inductive ApiCall : Type :=
| createExamTemplate (payload : ExamTemplateRequest.t)
| startExam (payload : StartExamRequest.t)
| submitExamAnswer (attemptId : number) (payload : SubmitAnswerRequest.t)
| getExamSummary (attemptId : number)
| getExamHistory (studentId : string).

(** The [useState] cells of the component, and what the component has done
    to the outside so far: the dialogs shown with [Alert.alert] and the calls
    made into [examApi], oldest first. *)
Record Screen : Type := mkScreen {
  templatePayload : ExamTemplateRequest.t;
  createdTemplate : option ExamTemplateResponse.t;
  activeAttempt : option StartExamResponse.t;
  currentQuestion : option ExamQuestion.t;
  answerState : AnswerState.t;
  lastAnswerResponse : option SubmitAnswerResponse.t;
  summary : option ExamSummaryResponse.t;
  historyStudentId : string;
  history : list ExamHistoryEntry.t;
  loading : LoadingState.t;
  startForm : StartForm.t;
  alerts : list (string * string);
  calls : list ApiCall
}.

Definition defaultTemplatePayload : ExamTemplateRequest.t :=
  ExamTemplateRequest.mk "" "" "" (int 10) (int 30) true.

Definition defaultAnswerState : AnswerState.t :=
  AnswerState.mk "" "" "30".

(** The component as it is mounted. *)
Definition initial : Screen :=
  {| templatePayload := defaultTemplatePayload;
     createdTemplate := None;
     activeAttempt := None;
     currentQuestion := None;
     answerState := defaultAnswerState;
     lastAnswerResponse := None;
     summary := None;
     historyStudentId := "";
     history := [];
     loading := LoadingState.mk None None None None None;
     startForm := StartForm.mk "" "";
     alerts := [];
     calls := [] |}.

(** ** Handlers as actions on the screen *)

Definition Action (A : Type) : Type := Screen -> completion A * Screen.

Definition ret {A : Type} (a : A) : Action A := fun s => (Returned a, s).

Definition seq {A B : Type} (c : Action A) (k : A -> Action B) : Action B :=
  fun s =>
    match c s with
    | (Returned a, s') => k a s'
    | (Raised e, s') => (Raised e, s')
    end.

(** [try { body } catch (error) { handler(error) } finally { final }] *)
Definition try_catch_finally {A : Type} (body : Action A)
  (handler : thrown -> Action A) (final : Action unit) : Action A :=
  fun s =>
    let '(r, s1) := body s in
    let '(r', s2) :=
      match r with
      | Returned a => (Returned a, s1)
      | Raised e => handler e s1
      end in
    match final s2 with
    | (Returned _, s3) => (r', s3)
    | (Raised e, s3) => (Raised e, s3)
    end.

(** The state the component is left in by an action. *)
Definition exec {A : Type} (c : Action A) (s : Screen) : Screen := snd (c s).

Declare Scope action_scope.
Delimit Scope action_scope with action.
Notation "x <- c ;; k" := (seq c (fun x => k))
  (at level 61, c at next level, right associativity) : action_scope.
Notation "c ;; k" := (seq c (fun _ => k))
  (at level 61, right associativity) : action_scope.

Local Open Scope action_scope.

Definition update (f : Screen -> Screen) : Action unit :=
  fun s => (Returned tt, f s).

Definition setTemplatePayload (f : ExamTemplateRequest.t -> ExamTemplateRequest.t)
  : Action unit :=
  update (fun s =>
    mkScreen (f (templatePayload s)) (createdTemplate s) (activeAttempt s)
      (currentQuestion s) (answerState s) (lastAnswerResponse s) (summary s)
      (historyStudentId s) (history s) (loading s) (startForm s)
      (alerts s) (calls s)).

Definition setCreatedTemplate (v : option ExamTemplateResponse.t) : Action unit :=
  update (fun s =>
    mkScreen (templatePayload s) v (activeAttempt s)
      (currentQuestion s) (answerState s) (lastAnswerResponse s) (summary s)
      (historyStudentId s) (history s) (loading s) (startForm s)
      (alerts s) (calls s)).

Definition setActiveAttempt (v : option StartExamResponse.t) : Action unit :=
  update (fun s =>
    mkScreen (templatePayload s) (createdTemplate s) v
      (currentQuestion s) (answerState s) (lastAnswerResponse s) (summary s)
      (historyStudentId s) (history s) (loading s) (startForm s)
      (alerts s) (calls s)).

Definition setCurrentQuestion (v : option ExamQuestion.t) : Action unit :=
  update (fun s =>
    mkScreen (templatePayload s) (createdTemplate s) (activeAttempt s)
      v (answerState s) (lastAnswerResponse s) (summary s)
      (historyStudentId s) (history s) (loading s) (startForm s)
      (alerts s) (calls s)).

Definition setAnswerState (f : AnswerState.t -> AnswerState.t) : Action unit :=
  update (fun s =>
    mkScreen (templatePayload s) (createdTemplate s) (activeAttempt s)
      (currentQuestion s) (f (answerState s)) (lastAnswerResponse s) (summary s)
      (historyStudentId s) (history s) (loading s) (startForm s)
      (alerts s) (calls s)).

Definition setLastAnswerResponse (v : option SubmitAnswerResponse.t)
  : Action unit :=
  update (fun s =>
    mkScreen (templatePayload s) (createdTemplate s) (activeAttempt s)
      (currentQuestion s) (answerState s) v (summary s)
      (historyStudentId s) (history s) (loading s) (startForm s)
      (alerts s) (calls s)).

Definition setSummary (v : option ExamSummaryResponse.t) : Action unit :=
  update (fun s =>
    mkScreen (templatePayload s) (createdTemplate s) (activeAttempt s)
      (currentQuestion s) (answerState s) (lastAnswerResponse s) v
      (historyStudentId s) (history s) (loading s) (startForm s)
      (alerts s) (calls s)).

Definition setHistoryStudentId (v : string) : Action unit :=
  update (fun s =>
    mkScreen (templatePayload s) (createdTemplate s) (activeAttempt s)
      (currentQuestion s) (answerState s) (lastAnswerResponse s) (summary s)
      v (history s) (loading s) (startForm s)
      (alerts s) (calls s)).

Definition setHistory (v : list ExamHistoryEntry.t) : Action unit :=
  update (fun s =>
    mkScreen (templatePayload s) (createdTemplate s) (activeAttempt s)
      (currentQuestion s) (answerState s) (lastAnswerResponse s) (summary s)
      (historyStudentId s) v (loading s) (startForm s)
      (alerts s) (calls s)).

Definition setLoading (f : LoadingState.t -> LoadingState.t) : Action unit :=
  update (fun s =>
    mkScreen (templatePayload s) (createdTemplate s) (activeAttempt s)
      (currentQuestion s) (answerState s) (lastAnswerResponse s) (summary s)
      (historyStudentId s) (history s) (f (loading s)) (startForm s)
      (alerts s) (calls s)).

Definition setStartForm (f : StartForm.t -> StartForm.t) : Action unit :=
  update (fun s =>
    mkScreen (templatePayload s) (createdTemplate s) (activeAttempt s)
      (currentQuestion s) (answerState s) (lastAnswerResponse s) (summary s)
      (historyStudentId s) (history s) (loading s) (f (startForm s))
      (alerts s) (calls s)).

(** [Alert.alert(title, message)] *)
Definition Alert_alert (title message : string) : Action unit :=
  update (fun s =>
    mkScreen (templatePayload s) (createdTemplate s) (activeAttempt s)
      (currentQuestion s) (answerState s) (lastAnswerResponse s) (summary s)
      (historyStudentId s) (history s) (loading s) (startForm s)
      (alerts s ++ [(title, message)]) (calls s)).

(** [await call(...)]: the call is made, and the handler resumes with what
    the promise completed with. *)
Definition await {T : Type} (call : ApiCall) (reply : completion T) : Action T :=
  fun s =>
    (reply,
     mkScreen (templatePayload s) (createdTemplate s) (activeAttempt s)
       (currentQuestion s) (answerState s) (lastAnswerResponse s) (summary s)
       (historyStudentId s) (history s) (loading s) (startForm s)
       (alerts s) (calls s ++ [call])).

(** The values of the state cells a handler closes over are those of the
    render in which it was created: a handler reads them once, at its
    start. *)
Definition closure {A : Type} (handler : Screen -> Action A) : Action A :=
  fun s => handler s s.

Inductive keyof_ExamTemplateRequest : Type :=
| Kname | Ksubject | Kchapter
| KtotalQuestions | KdurationMinutes | KadaptiveEnabled.

Section Handlers.

Variable B : Builtins.

(** [const disableAnswerSubmit = useMemo(...)] *)
Definition disableAnswerSubmit (s : Screen) : bool :=
  match currentQuestion s, activeAttempt s with
  | Some question, Some _ =>
      match ExamQuestion.type question with
      | MultipleChoice =>
          negb (truthy (AnswerState.selectedOptionId (answerState s)))
      | _ => false
      end
  | _, _ => true
  end.

Definition toNumber (value : string) : number :=
  let parsed := Number B value in
  if isFinite parsed then parsed else int 0.

Definition handleError (error : thrown) : Action unit :=
  let message :=
    match error with
    | ApiError _ message => message
    | Error _ message => message
    | NotAnError => "Something went wrong"
    end in
  Alert_alert "Request failed" message.

Definition handleTemplateChange (field : keyof_ExamTemplateRequest)
  (value : string) : Action unit :=
  setTemplatePayload (fun prev =>
    let '(ExamTemplateRequest.mk name subject chapter total duration adaptive) :=
      prev in
    match field with
    | KtotalQuestions =>
        ExamTemplateRequest.mk name subject chapter (toNumber value) duration
          adaptive
    | KdurationMinutes =>
        ExamTemplateRequest.mk name subject chapter total (toNumber value)
          adaptive
    | KadaptiveEnabled =>
        ExamTemplateRequest.mk name subject chapter total duration
          (value =? "true")%string
    | Kname =>
        ExamTemplateRequest.mk value subject chapter total duration adaptive
    | Ksubject =>
        ExamTemplateRequest.mk name value chapter total duration adaptive
    | Kchapter =>
        ExamTemplateRequest.mk name subject value total duration adaptive
    end).

Definition handleCreateTemplate (reply : completion ExamTemplateResponse.t)
  : Action unit :=
  closure (fun render =>
    setLoading (fun state =>
      LoadingState.mk (Some true) (LoadingState.start state)
        (LoadingState.answer state) (LoadingState.summary state)
        (LoadingState.history state)) ;;
    try_catch_finally
      (let templatePayload := templatePayload render in
       let payload :=
         ExamTemplateRequest.mk
           (ExamTemplateRequest.name templatePayload)
           (ExamTemplateRequest.subject templatePayload)
           (ExamTemplateRequest.chapter templatePayload)
           (Math_max (int 1) (ExamTemplateRequest.totalQuestions templatePayload))
           (Math_max (int 1) (ExamTemplateRequest.durationMinutes templatePayload))
           (ExamTemplateRequest.adaptiveEnabled templatePayload) in
       result <- await (createExamTemplate payload) reply ;;
       setCreatedTemplate (Some result) ;;
       setActiveAttempt None ;;
       setCurrentQuestion None ;;
       setSummary None ;;
       Alert_alert "Template created"
         ("Template ID: " ++ String_of B (ExamTemplateResponse.id result)))
      (fun error => handleError error)
      (setLoading (fun state =>
         LoadingState.mk (Some false) (LoadingState.start state)
           (LoadingState.answer state) (LoadingState.summary state)
           (LoadingState.history state))))%string.

Definition handleStartExam (reply : completion StartExamResponse.t)
  : Action unit :=
  closure (fun render =>
    let startForm := startForm render in
    if negb (truthy (StartForm.studentId startForm))
       || negb (truthy (StartForm.examTemplateId startForm))
    then Alert_alert "Missing data" "Student ID and template ID are required"
    else
      setLoading (fun state =>
        LoadingState.mk (LoadingState.template state) (Some true)
          (LoadingState.answer state) (LoadingState.summary state)
          (LoadingState.history state)) ;;
      try_catch_finally
        (let payload :=
           StartExamRequest.mk (trim (StartForm.studentId startForm))
             (toNumber (StartForm.examTemplateId startForm)) in
         result <- await (startExam payload) reply ;;
         setActiveAttempt (Some result) ;;
         setCurrentQuestion (Some (StartExamResponse.firstQuestion result)) ;;
         setLastAnswerResponse None ;;
         setSummary None ;;
         setAnswerState (fun _ => AnswerState.mk "" "" "30"))
        (fun error => handleError error)
        (setLoading (fun state =>
           LoadingState.mk (LoadingState.template state) (Some false)
             (LoadingState.answer state) (LoadingState.summary state)
             (LoadingState.history state)))).

Definition handleSelectOption (optionId : number) : Action unit :=
  setAnswerState (fun prev =>
    AnswerState.mk (String_of B optionId) (AnswerState.freeTextAnswer prev)
      (AnswerState.timeTakenSeconds prev)).

Definition isMultipleChoice (t : QuestionType) : bool :=
  match t with
  | MultipleChoice => true
  | _ => false
  end.

Definition handleSubmitAnswer (reply : completion SubmitAnswerResponse.t)
  : Action unit :=
  closure (fun render =>
    match activeAttempt render, currentQuestion render with
    | Some activeAttempt, Some currentQuestion =>
        let answerState := answerState render in
        let request :=
          SubmitAnswerRequest.mk
            (ExamQuestion.id currentQuestion)
            (if isMultipleChoice (ExamQuestion.type currentQuestion)
             then Some (toNumber (AnswerState.selectedOptionId answerState))
             else None)
            (if isMultipleChoice (ExamQuestion.type currentQuestion)
             then None
             else orNull (trim (AnswerState.freeTextAnswer answerState)))
            (Math_max (int 0)
               (toNumber (AnswerState.timeTakenSeconds answerState))) in
        setLoading (fun state =>
          LoadingState.mk (LoadingState.template state)
            (LoadingState.start state) (Some true)
            (LoadingState.summary state) (LoadingState.history state)) ;;
        try_catch_finally
          (response <-
             await (submitExamAnswer (StartExamResponse.attemptId activeAttempt)
                      request) reply ;;
           setLastAnswerResponse (Some response) ;;
           setCurrentQuestion (SubmitAnswerResponse.nextQuestion response) ;;
           match SubmitAnswerResponse.nextQuestion response with
           | None => setSummary None
           | Some _ => ret tt
           end ;;
           setAnswerState (fun _ => AnswerState.mk "" "" "30"))
          (fun error => handleError error)
          (setLoading (fun state =>
             LoadingState.mk (LoadingState.template state)
               (LoadingState.start state) (Some false)
               (LoadingState.summary state) (LoadingState.history state)))
    | _, _ => ret tt
    end).

Definition handleFetchSummary (reply : completion ExamSummaryResponse.t)
  : Action unit :=
  closure (fun render =>
    match activeAttempt render with
    | None => Alert_alert "No attempt" "Start an exam attempt first"
    | Some activeAttempt =>
        setLoading (fun state =>
          LoadingState.mk (LoadingState.template state)
            (LoadingState.start state) (LoadingState.answer state)
            (Some true) (LoadingState.history state)) ;;
        try_catch_finally
          (data <-
             await (getExamSummary (StartExamResponse.attemptId activeAttempt))
               reply ;;
           setSummary (Some data))
          (fun error => handleError error)
          (setLoading (fun state =>
             LoadingState.mk (LoadingState.template state)
               (LoadingState.start state) (LoadingState.answer state)
               (Some false) (LoadingState.history state)))
    end).

Definition handleFetchHistory (reply : completion (list ExamHistoryEntry.t))
  : Action unit :=
  closure (fun render =>
    let historyStudentId := historyStudentId render in
    if negb (truthy (trim historyStudentId))
    then Alert_alert "Missing student" "Enter a student ID"
    else
      setLoading (fun state =>
        LoadingState.mk (LoadingState.template state)
          (LoadingState.start state) (LoadingState.answer state)
          (LoadingState.summary state) (Some true)) ;;
      try_catch_finally
        (result <- await (getExamHistory (trim historyStudentId)) reply ;;
         setHistory result)
        (fun error => handleError error)
        (setLoading (fun state =>
           LoadingState.mk (LoadingState.template state)
             (LoadingState.start state) (LoadingState.answer state)
             (LoadingState.summary state) (Some false)))).

(** ** What can happen to the screen *)

(** Every way the rendered component changes its state: the [onChangeText]
    and [onPress] callbacks of the form fields and the five requests, each
    with what its promise completes with. *)
Inductive Event : Type :=
| TemplateChange (field : keyof_ExamTemplateRequest) (value : string)
| CreateTemplate (reply : completion ExamTemplateResponse.t)
| StartFormStudentId (value : string)
| StartFormExamTemplateId (value : string)
| StartExam (reply : completion StartExamResponse.t)
| SelectOption (optionId : number)
| FreeTextAnswer (value : string)
| TimeTakenSeconds (value : string)
| SubmitAnswer (reply : completion SubmitAnswerResponse.t)
| FetchSummary (reply : completion ExamSummaryResponse.t)
| HistoryStudentId (value : string)
| FetchHistory (reply : completion (list ExamHistoryEntry.t)).

Definition on (e : Event) : Action unit :=
  match e with
  | TemplateChange field value => handleTemplateChange field value
  | CreateTemplate reply => handleCreateTemplate reply
  | StartFormStudentId value =>
      setStartForm (fun prev =>
        StartForm.mk value (StartForm.examTemplateId prev))
  | StartFormExamTemplateId value =>
      setStartForm (fun prev =>
        StartForm.mk (StartForm.studentId prev) value)
  | StartExam reply => handleStartExam reply
  | SelectOption optionId => handleSelectOption optionId
  | FreeTextAnswer value =>
      setAnswerState (fun prev =>
        AnswerState.mk (AnswerState.selectedOptionId prev) value
          (AnswerState.timeTakenSeconds prev))
  | TimeTakenSeconds value =>
      setAnswerState (fun prev =>
        AnswerState.mk (AnswerState.selectedOptionId prev)
          (AnswerState.freeTextAnswer prev) value)
  | SubmitAnswer reply => handleSubmitAnswer reply
  | FetchSummary reply => handleFetchSummary reply
  | HistoryStudentId value => setHistoryStudentId value
  | FetchHistory reply => handleFetchHistory reply
  end.

(** The screen after a series of events, each handled to its end before
    the next one starts. *)
Fixpoint run (events : list Event) (s : Screen) : Screen :=
  match events with
  | [] => s
  | e :: rest => run rest (exec (on e) s)
  end.

Definition isStartExam (e : Event) : bool :=
  match e with
  | StartExam _ => true
  | _ => false
  end.

End Handlers.

(** The part of the state the exam workflow consists of. *)
Definition workflow (s : Screen) :=
  (createdTemplate s, activeAttempt s, currentQuestion s,
   lastAnswerResponse s, summary s, history s).

End ExamScreen.

(* ===================================================================== *)
(** * src/components/ChatScreen.tsx *)
(* ===================================================================== *)

Module ChatScreen.

Import chatApi.

Inductive Sender : Type := user | bot.

Module ChatMessage.
Record t : Type := mk {
  id : string;
  text : string;
  sender : Sender;
  time : string
}.
End ChatMessage.

(** What the clock and the random generator give a message created by
    [handleSend]: its id, [`${Date.now()}-${Math.random()}`], and the time
    of day shown next to it. *)
Module Stamp.
Record t : Type := mk {
  id : string;
  time : string
}.
End Stamp.

Inductive ChatAction : Type :=
| add (payload : ChatMessage.t)
| set (payload : list ChatMessage.t).

(** The state cells of the component that the workflow uses, and the
    callbacks [handleSend] has scheduled with [setTimeout] and that have not
    run yet, oldest first: each adds the bot message it holds. *)
Record Chat : Type := mkChat {
  sessionId : option string;
  input : string;
  isTyping : bool;
  isHistoryLoading : bool;
  followUpQuestion : option string;
  messages : list ChatMessage.t;
  timers : list ChatMessage.t
}.

(** The reducer given to [useReducer]. *)
Definition reducer (state : list ChatMessage.t) (action : ChatAction)
  : list ChatMessage.t :=
  match action with
  | add payload => state ++ [payload]
  | set payload => payload
  end.

Definition dispatch (action : ChatAction) (s : Chat) : Chat :=
  mkChat (sessionId s) (input s) (isTyping s) (isHistoryLoading s)
    (followUpQuestion s) (reducer (messages s) action) (timers s).

Definition setSessionId (v : option string) (s : Chat) : Chat :=
  mkChat v (input s) (isTyping s) (isHistoryLoading s)
    (followUpQuestion s) (messages s) (timers s).

Definition setInput (v : string) (s : Chat) : Chat :=
  mkChat (sessionId s) v (isTyping s) (isHistoryLoading s)
    (followUpQuestion s) (messages s) (timers s).

Definition setIsTyping (v : bool) (s : Chat) : Chat :=
  mkChat (sessionId s) (input s) v (isHistoryLoading s)
    (followUpQuestion s) (messages s) (timers s).

Definition setIsHistoryLoading (v : bool) (s : Chat) : Chat :=
  mkChat (sessionId s) (input s) (isTyping s) v
    (followUpQuestion s) (messages s) (timers s).

Definition setFollowUpQuestion (v : option string) (s : Chat) : Chat :=
  mkChat (sessionId s) (input s) (isTyping s) (isHistoryLoading s)
    v (messages s) (timers s).

(** [setTimeout(() => { dispatch({ type: "add", payload }) ... }, 800)] *)
Definition setTimeout (payload : ChatMessage.t) (s : Chat) : Chat :=
  mkChat (sessionId s) (input s) (isTyping s) (isHistoryLoading s)
    (followUpQuestion s) (messages s) (timers s ++ [payload]).

Section Component.

Variable B : Builtins.

(** [new Date().toLocaleTimeString(...)] when the module is loaded. *)
Variable loadTime : string.

(** [new Date(value)] rendered with [toLocaleTimeString]; [None] when the
    date is invalid ([Number.isNaN(parsed.getTime())]). *)
Variable renderDate : string -> option string.

(** The greeting; the emoji and the dash are kept as their UTF-8 bytes. *)
Definition initialMessages : list ChatMessage.t :=
  [ ChatMessage.mk "1"
      "👋 Hi!  I'm Smarty — your Smart Study AI Assistant. Ask me anything about your studies, solve doubts and more... What would you like to learn today?"
      bot loadTime ].

(** The component as it is mounted. *)
Definition initial : Chat :=
  mkChat None "" false true None initialMessages [].

(** [formatTimestamp(value)]; [now] is the time of day at the call. *)
Definition formatTimestamp (now : string) (value : option string) : string :=
  match value with
  | None => now
  | Some v =>
      if negb (truthy v) then now
      else
        match renderDate v with
        | None => now
        | Some rendered => rendered
        end
  end.

(** [entry.id ?? `history-${index}`] *)
Definition baseId (entry : ChatHistoryItem.t) (index : nat) : string :=
  match ChatHistoryItem.id entry with
  | Some (inl n) => String_of B n
  | Some (inr s) => s
  | None => "history-" ++ String_of_nat index
  end.

(** The callback of [items.forEach], as it changes [mapped]. *)
Definition visit (now : string) (mapped : list ChatMessage.t)
  (entry : ChatHistoryItem.t) (index : nat) : list ChatMessage.t :=
  let mapped :=
    if truthy (ChatHistoryItem.message entry) then
      mapped ++ [ ChatMessage.mk (baseId entry index ++ "-user")
                    (ChatHistoryItem.message entry) user
                    (formatTimestamp now (ChatHistoryItem.timestamp entry)) ]
    else mapped in
  match ChatHistoryItem.reply entry with
  | Some reply =>
      if truthy reply then
        mapped ++ [ ChatMessage.mk (baseId entry index ++ "-bot")
                      reply bot
                      (formatTimestamp now (ChatHistoryItem.timestamp entry)) ]
      else mapped
  | None => mapped
  end.

Fixpoint forEach (now : string) (items : list ChatHistoryItem.t) (index : nat)
  (mapped : list ChatMessage.t) : list ChatMessage.t :=
  match items with
  | [] => mapped
  | entry :: rest => forEach now rest (S index) (visit now mapped entry index)
  end.

Definition mapHistoryToMessages (now : string) (items : list ChatHistoryItem.t)
  : list ChatMessage.t :=
  let mapped := forEach now items 0 [] in
  if (length mapped =? 0)%nat then initialMessages else mapped.

(** The effect that loads the history when the component is mounted.
    [recent] and [fetched] are what the two awaited calls complete with;
    [mounted1] and [mounted2] tell whether the component is still mounted
    when the first and the second call complete. The five-second timer of
    the source only sets [isHistoryLoading] to [false] earlier. *)
Definition loadHistory (now : string)
  (recent : completion (option string))
  (fetched : completion (list ChatHistoryItem.t))
  (mounted1 mounted2 : bool) (s : Chat) : Chat :=
  let finally (isMounted : bool) (s : Chat) :=
    if isMounted then setIsHistoryLoading false s else s in
  match recent with
  | Raised _ => finally mounted1 s
  | Returned recentSession =>
      if negb mounted1 then finally mounted1 s
      else if present recentSession then
        let s := setSessionId recentSession s in
        match fetched with
        | Raised _ => finally mounted2 s
        | Returned historyItems =>
            if negb mounted2 then finally mounted2 s
            else
              let hydrated := mapHistoryToMessages now historyItems in
              finally mounted2 (dispatch (set hydrated) s)
        end
      else finally mounted1 s
  end.

(** [handleSend(textToSend)]; [reply] is what [await sendChatMessage(...)]
    completes with. *)
Definition handleSend (textToSend : option string)
  (userStamp botStamp : Stamp.t)
  (reply : completion SendChatResponse.t) (s : Chat) : Chat :=
  let finalText :=
    match textToSend with
    | Some text => text
    | None => trim (input s)
    end in
  if negb (truthy finalText) then s
  else
    let userMsg :=
      ChatMessage.mk (Stamp.id userStamp) finalText user
        (Stamp.time userStamp) in
    let s := dispatch (add userMsg) s in
    let s := setInput "" s in
    let s := setFollowUpQuestion None s in
    let s := setIsTyping true s in
    match reply with
    | Returned response =>
        let s :=
          if present (SendChatResponse.sessionId response)
          then setSessionId (SendChatResponse.sessionId response) s
          else s in
        let answer :=
          orElse (SendChatResponse.reply response)
            (orElse (SendChatResponse.answer response)
               "No response from server.") in
        let lowerText := trim (toLowerCase finalText) in
        let isDisagreement :=
          (lowerText =? "no")%string
          || (lowerText =? "nope")%string
          || (lowerText =? "disagree")%string
          || (lowerText =? "i disagree")%string
          || startsWith lowerText "no "
          || startsWith lowerText "i don't" in
        let s :=
          if present (SendChatResponse.followUpQuestion response)
             && negb isDisagreement
          then setFollowUpQuestion (SendChatResponse.followUpQuestion response) s
          else setFollowUpQuestion None s in
        let botMsg :=
          ChatMessage.mk (Stamp.id botStamp) answer bot
            (Stamp.time botStamp) in
        setTimeout botMsg s
    | Raised _ =>
        let s := setIsTyping false s in
        let errorMsg :=
          ChatMessage.mk (Stamp.id botStamp)
            "⚠️ Connection error. Please try again."
            bot (Stamp.time botStamp) in
        dispatch (add errorMsg) s
    end.

(** The oldest scheduled callback runs. *)
Definition onTimeout (s : Chat) : Chat :=
  match timers s with
  | [] => s
  | botMsg :: later =>
      let s :=
        mkChat (sessionId s) (input s) (isTyping s) (isHistoryLoading s)
          (followUpQuestion s) (messages s) later in
      setIsTyping false (dispatch (add botMsg) s)
  end.

(** The press on the follow-up chip. *)
Definition acceptFollowUp (userStamp botStamp : Stamp.t)
  (reply : completion SendChatResponse.t) (s : Chat) : Chat :=
  match followUpQuestion s with
  | Some prompt =>
      if truthy prompt then
        handleSend (Some prompt) userStamp botStamp reply
          (setFollowUpQuestion None s)
      else s
  | None => s
  end.

(** ** What can happen to the screen *)

Inductive Event : Type :=
| ChangeText (value : string)
| Send (userStamp botStamp : Stamp.t) (reply : completion SendChatResponse.t)
| AcceptFollowUp (userStamp botStamp : Stamp.t)
    (reply : completion SendChatResponse.t)
| TimerFires
| LoadHistory (now : string) (recent : completion (option string))
    (fetched : completion (list ChatHistoryItem.t)) (mounted1 mounted2 : bool).

Definition on (e : Event) (s : Chat) : Chat :=
  match e with
  | ChangeText value => setInput value s
  | Send userStamp botStamp reply =>
      handleSend (Some (input s)) userStamp botStamp reply s
  | AcceptFollowUp userStamp botStamp reply =>
      acceptFollowUp userStamp botStamp reply s
  | TimerFires => onTimeout s
  | LoadHistory now recent fetched mounted1 mounted2 =>
      loadHistory now recent fetched mounted1 mounted2 s
  end.

Fixpoint run (events : list Event) (s : Chat) : Chat :=
  match events with
  | [] => s
  | e :: rest => run rest (on e s)
  end.

End Component.

End ChatScreen.

(* ===================================================================== *)
(** * Vocabulary of the specification *)
(* ===================================================================== *)

Module Spec.

Import examApi chatApi.

(** The message of the error raised on a non-success status, in the words
    of the specification: the [message] field of the body, else its [error]
    field, else the HTTP status text. *)
Definition errorMessage (parseError : JSON_parse ErrorBody.t) (r : Response)
  : string :=
  match
    match body r with
    | EmptyString => None
    | raw => parseError raw
    end
  with
  | Some (ErrorBody.mk (Some message) _) => message
  | Some (ErrorBody.mk None (Some error)) => error
  | _ => statusText r
  end.

(** The text of the bot reply, in the words of the specification:
    [reply ?? answer ?? default]. *)
Definition replyText (response : SendChatResponse.t) : string :=
  match SendChatResponse.reply response with
  | Some reply => reply
  | None =>
      match SendChatResponse.answer response with
      | Some answer => answer
      | None => "No response from server."
      end
  end.

(** A field of a response that is missing or holds the empty string. *)
Definition blank (field : option string) : Prop :=
  field = None \/ field = Some "".

(** The disagreement signal in the text the user has just sent. *)
Definition disagrees (text : string) : Prop :=
  let t := trim (toLowerCase text) in
  t = "no" \/ t = "nope" \/ t = "disagree" \/ t = "i disagree"
  \/ (exists rest, t = ("no " ++ rest)%string)
  \/ (exists rest, t = ("i don't" ++ rest)%string).

(** The message an alert shows for a failure: that of the error object
    when there is one, else a fixed one. *)
Definition surfaced (e : thrown) : string :=
  match e with
  | ApiError _ message => message
  | Error _ message => message
  | NotAnError => "Something went wrong"
  end.

(** The requests of the exam workflow whose call has failed with [e]. *)
Definition fails (ev : ExamScreen.Event) (e : thrown) : Prop :=
  ev = ExamScreen.CreateTemplate (Raised e)
  \/ ev = ExamScreen.StartExam (Raised e)
  \/ ev = ExamScreen.SubmitAnswer (Raised e)
  \/ ev = ExamScreen.FetchSummary (Raised e)
  \/ ev = ExamScreen.FetchHistory (Raised e).

(** The answer submissions among the calls made so far. *)
Definition submissions (calls : list ExamScreen.ApiCall)
  : list ExamScreen.ApiCall :=
  filter (fun c =>
    match c with
    | ExamScreen.submitExamAnswer _ _ => true
    | _ => false
    end) calls.

(** The two numbers of the template form are finite. *)
Definition finiteForm (p : ExamTemplateRequest.t) : Prop :=
  isFinite (ExamTemplateRequest.totalQuestions p) = true
  /\ isFinite (ExamTemplateRequest.durationMinutes p) = true.

(** What a transcript shows of a message. *)
Definition shown (m : ChatScreen.ChatMessage.t) : ChatScreen.Sender * string :=
  (ChatScreen.ChatMessage.sender m, ChatScreen.ChatMessage.text m).

(** An entry of the history with neither a message nor a reply to show. *)
Definition silent (entry : ChatHistoryItem.t) : Prop :=
  ChatHistoryItem.message entry = "" /\ blank (ChatHistoryItem.reply entry).

End Spec.

(* ===================================================================== *)
(** * Sample values *)
(* ===================================================================== *)

Module Sample.

Import examApi chatApi.

Fixpoint digits (s : string) (acc : Z) : option Z :=
  match s with
  | EmptyString => Some acc
  | String c rest =>
      let n := nat_of_ascii c in
      if ((48 <=? n) && (n <=? 57))%nat
      then digits rest (10 * acc + Z.of_nat (n - 48))%Z
      else None
  end.

(** The built-in conversions on the numbers written with digits only and
    on the integers; enough for the examples below. *)
Definition builtins : Builtins :=
  {| Number := fun value =>
       match digits (trim value) 0 with
       | Some z => int z
       | None => NaN
       end;
     String_of := fun n =>
       match n with
       | NaN => "NaN"
       | Infinity false => "Infinity"
       | Infinity true => "-Infinity"
       | Finite q => String_of_int (Qnum q / Zpos (Qden q))
       end |}.

Definition template : ExamTemplateResponse.t :=
  ExamTemplateResponse.mk "Algebra" "Math" "Eq" (int 5) (int 10) true
    (int 7) "2024-01-01T00:00:00Z".

Definition question (t : QuestionType) : ExamQuestion.t :=
  ExamQuestion.mk (int 3) "Math" "Eq" "Linear" "x + 1 = 2" t Easy
    [ExamOption.mk (int 1) "x = 1"; ExamOption.mk (int 2) "x = 2"].

Definition attempt : StartExamResponse.t :=
  StartExamResponse.mk (int 42) template (question MultipleChoice).

Definition noStats : DifficultyStats.t :=
  DifficultyStats.mk (int 0) (int 0) (int 0).

Definition lastAnswer : SubmitAnswerResponse.t :=
  SubmitAnswerResponse.mk (Some true) true None
    (CurrentStats.mk (int 5) (int 5) (int 0) (int 100)
       (DifficultyBreakdown.mk noStats noStats noStats)).

(** A screen in the middle of an attempt, the question [q] on display. *)
Definition answering (q : ExamQuestion.t) (entered : ExamScreen.AnswerState.t)
  : ExamScreen.Screen :=
  ExamScreen.mkScreen ExamScreen.defaultTemplatePayload (Some template)
    (Some attempt) (Some q) entered None None "student-001" []
    (ExamScreen.LoadingState.mk None None None None None)
    (ExamScreen.StartForm.mk "student-001" "7") [] [].

Definition stamp (n : string) : ChatScreen.Stamp.t :=
  ChatScreen.Stamp.mk n "10:00".

Definition suggestion (q : string) : SendChatResponse.t :=
  SendChatResponse.mk (Some "success") (Some "s-1") None (Some "Sure.")
    None None None (Some q).

End Sample.

(* ===================================================================== *)
(** * Further vocabulary *)
(* ===================================================================== *)

Module Behaviour.

Import examApi chatApi.

(** [l'] is [l] with something added at its end, or [l] itself. *)
Definition extends {A : Type} (l l' : list A) : Prop :=
  exists more, l' = l ++ more.

(** Every message of the list has a text to show. *)
Definition worded (ms : list ChatScreen.ChatMessage.t) : Prop :=
  Forall (fun m => ChatScreen.ChatMessage.text m <> "") ms.

Definition isLoadHistory (e : ChatScreen.Event) : bool :=
  match e with
  | ChatScreen.LoadHistory _ _ _ _ _ => true
  | _ => false
  end.

(** The bot message shown when a send fails. *)
Definition connectionError (stamp : ChatScreen.Stamp.t)
  : ChatScreen.ChatMessage.t :=
  ChatScreen.ChatMessage.mk (ChatScreen.Stamp.id stamp)
    "⚠️ Connection error. Please try again." ChatScreen.bot
    (ChatScreen.Stamp.time stamp).

(** The message of the user, as [handleSend] adds it. *)
Definition userMessage (stamp : ChatScreen.Stamp.t) (text : string)
  : ChatScreen.ChatMessage.t :=
  ChatScreen.ChatMessage.mk (ChatScreen.Stamp.id stamp) text ChatScreen.user
    (ChatScreen.Stamp.time stamp).




(** No request of the exam screen is marked as running. *)
Definition idle (l : ExamScreen.LoadingState.t) : Prop :=
  ExamScreen.LoadingState.template l <> Some true
  /\ ExamScreen.LoadingState.start l <> Some true
  /\ ExamScreen.LoadingState.answer l <> Some true
  /\ ExamScreen.LoadingState.summary l <> Some true
  /\ ExamScreen.LoadingState.history l <> Some true.

(** The events of the exam screen that only edit a form field. *)
Definition isEdit (e : ExamScreen.Event) : bool :=
  match e with
  | ExamScreen.TemplateChange _ _
  | ExamScreen.StartFormStudentId _
  | ExamScreen.StartFormExamTemplateId _
  | ExamScreen.SelectOption _
  | ExamScreen.FreeTextAnswer _
  | ExamScreen.TimeTakenSeconds _
  | ExamScreen.HistoryStudentId _ => true
  | _ => false
  end.


(** The question ids of the answer submissions among the calls. *)
Definition submittedQuestions (calls : list ExamScreen.ApiCall)
  : list number :=
  flat_map (fun c =>
    match c with
    | ExamScreen.submitExamAnswer _ payload =>
        [SubmitAnswerRequest.questionId payload]
    | _ => []
    end) calls.

End Behaviour.

(* ===================================================================== *)
(** * Theorems *)
(* ===================================================================== *)

Import examApi chatApi.

(** ** Strings and numbers *)

Lemma truthy_false_iff (s : string) : truthy s = false <-> s = "".
Proof.
  destruct s; simpl; split; intro H; congruence.
Qed.

Lemma truthy_true_iff (s : string) : truthy s = true <-> s <> "".
Proof.
  destruct s; simpl; split; intro H; congruence.
Qed.


Lemma startsWith_iff (s p : string) :
  startsWith s p = true <-> exists rest, s = (p ++ rest)%string.
Proof.
  revert s.
  induction p as [|c p IH]; intros s; simpl.
  - split; [intros _; exists s; reflexivity | reflexivity].
  - destruct s as [|d s].
    + split; [discriminate | intros [rest H]; discriminate].
    + destruct (Ascii.eqb_spec c d) as [->|Hne]; simpl.
      * rewrite IH. split; intros [rest H]; exists rest; congruence.
      * split; [discriminate | intros [rest H]; congruence].
Qed.

Lemma Math_max_finite_le (z : Z) (n : number) :
  isFinite n = true -> le (int z) (Math_max (int z) n).
Proof.
  destruct n as [| |q]; simpl; try discriminate. intros _.
  destruct (Qle_bool (inject_Z z) q) eqn:E; simpl.
  - apply Qle_bool_iff; exact E.
  - apply Qle_refl.
Qed.

Lemma Math_max_finite (z : Z) (n : number) :
  isFinite n = true -> isFinite (Math_max (int z) n) = true.
Proof.
  destruct n as [| |q]; simpl; try discriminate. intros _.
  destruct (Qle_bool (inject_Z z) q); reflexivity.
Qed.

Lemma Math_max_keeps (z : Z) (n : number) :
  le (int z) n -> isFinite n = true -> Math_max (int z) n = n.
Proof.
  destruct n as [| |q]; simpl; try discriminate. intros H _.
  apply Qle_bool_iff in H. rewrite H. reflexivity.
Qed.

Lemma Math_max_raises (z : Z) (n : number) :
  ~ le (int z) n -> isFinite n = true -> Math_max (int z) n = int z.
Proof.
  destruct n as [| |q]; simpl; try discriminate. intros H _.
  destruct (Qle_bool (inject_Z z) q) eqn:E; [|reflexivity].
  apply Qle_bool_iff in E. contradiction.
Qed.

(** ** The API clients *)

(** C5. [fetchMostRecentSessionId] always returns and never raises. It
    returns [null] when the transport fails, when the status is not a
    success status, and when the body is not JSON; and when it returns a
    session id, the response had a success status and its body carried that
    id. *)
Theorem most_recent_session_never_raises
  (parse : JSON_parse MostRecentSessionResponse.t)
  (fetched : completion Response) :
  (exists result, fetchMostRecentSessionId parse fetched = Returned result)
  /\ (forall e, fetched = Raised e ->
      fetchMostRecentSessionId parse fetched = Returned None)
  /\ (forall r, fetched = Returned r -> ok r = false ->
      fetchMostRecentSessionId parse fetched = Returned None)
  /\ (forall r, fetched = Returned r -> parse (body r) = None ->
      fetchMostRecentSessionId parse fetched = Returned None)
  /\ (forall sessionId,
      fetchMostRecentSessionId parse fetched = Returned (Some sessionId) ->
      exists r data,
        fetched = Returned r /\ ok r = true /\ parse (body r) = Some data
        /\ MostRecentSessionResponse.sessionId data = Some sessionId).
Proof.
  unfold fetchMostRecentSessionId, try_catch, bind, json.
  destruct fetched as [r|e].
  - destruct (ok r) eqn:Hok; cbn.
    + destruct (parse (body r)) as [data|] eqn:Hparse; cbn.
      * assert (Hboth :
          (if match MostRecentSessionResponse.status data with
              | Some st => (st =? "success")%string
              | None => false
              end && present (MostRecentSessionResponse.sessionId data)
           then Returned (MostRecentSessionResponse.sessionId data)
           else Returned (MostRecentSessionResponse.sessionId data))
          = Returned (MostRecentSessionResponse.sessionId data)).
        { destruct (_ && _); reflexivity. }
        rewrite Hboth.
        split; [eexists; reflexivity|].
        split; [discriminate|].
        split; [intros r' [= <-] H; congruence|].
        split; [intros r' [= <-] H; congruence|].
        intros sessionId [= H]. exists r, data. auto.
      * split; [eexists; reflexivity|].
        split; [discriminate|].
        split; [reflexivity|].
        split; [reflexivity|].
        discriminate.
    + split; [eexists; reflexivity|].
      split; [discriminate|].
      split; [reflexivity|].
      split; [reflexivity|].
      discriminate.
  - cbn. split; [eexists; reflexivity|].
    split; [reflexivity|].
    split; [discriminate|].
    split; [discriminate|].
    discriminate.
Qed.

Lemma most_recent_session_never_raises_witness :
  let parse := fun raw : string =>
    if (raw =? "{}")%string
    then Some (MostRecentSessionResponse.mk (Some "success") (Some "s-1"))
    else None in
  fetchMostRecentSessionId parse (Raised NetworkFailure) = Returned None
  /\ fetchMostRecentSessionId parse
       (Returned (mkResponse 500 "Internal Server Error" "{}")) = Returned None
  /\ fetchMostRecentSessionId parse
       (Returned (mkResponse 200 "OK" "<html>")) = Returned None
  /\ exists r data,
       Returned (mkResponse 200 "OK" "{}") = Returned r
       /\ ok r = true /\ parse (body r) = Some data
       /\ MostRecentSessionResponse.sessionId data = Some "s-1".
Proof.
  intros parse.
  split.
  { exact (proj1 (proj2 (most_recent_session_never_raises parse
                           (Raised NetworkFailure))) _ eq_refl). }
  split.
  { exact (proj1 (proj2 (proj2 (most_recent_session_never_raises parse
             (Returned (mkResponse 500 "Internal Server Error" "{}")))))
             _ eq_refl eq_refl). }
  split.
  { exact (proj1 (proj2 (proj2 (proj2 (most_recent_session_never_raises parse
             (Returned (mkResponse 200 "OK" "<html>"))))))
             _ eq_refl eq_refl). }
  exact (proj2 (proj2 (proj2 (proj2 (most_recent_session_never_raises parse
           (Returned (mkResponse 200 "OK" "{}"))))))
           "s-1" eq_refl).
Defined.

(** C6, as the specification words it, fails: a response with a
    non-success status, an empty status text and no usable body raises an
    error whose message is ["Request failed"], not the status text. *)
Lemma request_message_is_not_always_status_text :
  ~ (forall (parseError : JSON_parse ErrorBody.t) (r : Response),
       ok r = false ->
       request unit (fun _ => None) parseError (Returned r)
       = Raised (ApiError (status r) (Spec.errorMessage parseError r))).
Proof.
  intros H.
  specialize (H (fun _ => None) (mkResponse 500 "" "") eq_refl).
  discriminate H.
Qed.

(** C6, amended. On a non-success status [request] raises an [ApiError]
    with the status and, as message, the first of these that is not empty:
    the [message] field of the body, its [error] field, the HTTP status
    text, and the fixed text ["Request failed"]; the two fields count as
    missing when the body is empty or is not JSON. A 204 response returns
    the empty object whatever its body is and whatever the JSON reader would
    make of it, and so does an empty body on any other success status. *)
Theorem request_contract
  (T : Type) (parse : JSON_parse T) (parseError : JSON_parse ErrorBody.t)
  (r : Response) :
  let fields :=
    match body r with
    | EmptyString => None
    | raw => parseError raw
    end in
  let field (get : ErrorBody.t -> option string) :=
    match fields with
    | Some b => match get b with Some text => text | None => "" end
    | None => ""
    end in
  (ok r = false ->
   exists message,
     request T parse parseError (Returned r)
     = Raised (ApiError (status r) message)
     /\ (field ErrorBody.message <> "" -> message = field ErrorBody.message)
     /\ (field ErrorBody.message = "" -> field ErrorBody.error <> "" ->
         message = field ErrorBody.error)
     /\ (field ErrorBody.message = "" -> field ErrorBody.error = "" ->
         statusText r <> "" -> message = statusText r)
     /\ (field ErrorBody.message = "" -> field ErrorBody.error = "" ->
         statusText r = "" -> message = "Request failed"))
  /\ (status r = 204%Z ->
      request T parse parseError (Returned r) = Returned EmptyObject)
  /\ (ok r = true -> body r = "" ->
      request T parse parseError (Returned r) = Returned EmptyObject).
Proof.
  intros fields field. subst field fields.
  unfold request, parseJson.
  split; [|split].
  - intros ->. cbn [negb]. cbv iota. eexists. split; [reflexivity|].
    destruct (body r) as [|c raw]; cbn.
    + destruct (statusText r); cbn; repeat split; congruence.
    + destruct (parseError (String c raw)) as [[[m|] [e|]]|]; cbn;
        try destruct m; try destruct e; destruct (statusText r); cbn;
        repeat split; congruence.
  - intros H. unfold ok. rewrite H. reflexivity.
  - intros -> ->. cbn. destruct (status r =? 204)%Z; reflexivity.
Qed.

Lemma request_contract_witness :
  let parseError := fun raw : string =>
    if (raw =? "{}")%string
    then Some (ErrorBody.mk None (Some "Unknown template"))
    else None in
  request unit (fun _ => None) parseError
    (Returned (mkResponse 404 "Not Found" "{}"))
  = Raised (ApiError 404 "Unknown template")
  /\ request unit (fun _ => None) parseError
       (Returned (mkResponse 204 "No Content" "<html>"))
     = Returned EmptyObject
  /\ request unit (fun _ => None) parseError
       (Returned (mkResponse 200 "OK" ""))
     = Returned EmptyObject.
Proof.
  intros parseError.
  split.
  { destruct (proj1 (request_contract unit (fun _ => None) parseError
                       (mkResponse 404 "Not Found" "{}")) eq_refl)
      as (message & Hraised & _ & Herror & _).
    rewrite Hraised. f_equal. f_equal.
    apply Herror; [reflexivity | discriminate]. }
  split.
  { exact (proj1 (proj2 (request_contract unit (fun _ => None) parseError
                           (mkResponse 204 "No Content" "<html>"))) eq_refl). }
  exact (proj2 (proj2 (request_contract unit (fun _ => None) parseError
                         (mkResponse 200 "OK" ""))) eq_refl eq_refl).
Defined.

(** ** The exam screen *)

(** Running a handler on a screen given by its cells. *)
Ltac step_handler :=
  cbv beta iota zeta delta [ExamScreen.exec ExamScreen.on
    ExamScreen.handleCreateTemplate ExamScreen.handleStartExam
    ExamScreen.handleSubmitAnswer ExamScreen.handleFetchSummary
    ExamScreen.handleFetchHistory ExamScreen.handleTemplateChange
    ExamScreen.handleSelectOption ExamScreen.handleError ExamScreen.closure
    ExamScreen.try_catch_finally ExamScreen.await
    ExamScreen.setTemplatePayload ExamScreen.setCreatedTemplate
    ExamScreen.setActiveAttempt ExamScreen.setCurrentQuestion
    ExamScreen.setAnswerState ExamScreen.setLastAnswerResponse
    ExamScreen.setSummary ExamScreen.setHistoryStudentId
    ExamScreen.setHistory ExamScreen.setLoading ExamScreen.setStartForm
    ExamScreen.Alert_alert ExamScreen.seq ExamScreen.update ExamScreen.ret
    snd fst ExamScreen.templatePayload ExamScreen.createdTemplate
    ExamScreen.activeAttempt ExamScreen.currentQuestion
    ExamScreen.answerState ExamScreen.lastAnswerResponse ExamScreen.summary
    ExamScreen.historyStudentId ExamScreen.history ExamScreen.loading
    ExamScreen.startForm ExamScreen.alerts ExamScreen.calls].

Section ExamScreenFacts.

Import ExamScreen.

Variable B : Builtins.

Lemma toNumber_finite (value : string) : isFinite (toNumber B value) = true.
Proof.
  unfold toNumber. destruct (isFinite (Number B value)) eqn:E; [exact E | reflexivity].
Qed.

Lemma on_finiteForm (e : Event) (s : Screen) :
  Spec.finiteForm (templatePayload s) ->
  Spec.finiteForm (templatePayload (exec (on B e) s)).
Proof.
  unfold Spec.finiteForm. destruct s as [form ct aa cq ans lar sm hs h ld sf al cl].
  cbn. intros [Ht Hd].
  destruct e.
  all: step_handler.
  - destruct form; destruct field; cbn in *; auto using toNumber_finite.
  - destruct reply; cbn; auto.
  - auto.
  - auto.
  - destruct (negb (truthy (StartForm.studentId sf)) || negb (truthy (StartForm.examTemplateId sf))); [|destruct reply]; cbn; auto.
  - auto.
  - auto.
  - auto.
  - destruct aa, cq; try destruct reply as [r|]; try destruct (SubmitAnswerResponse.nextQuestion r); cbn; auto.
  - destruct aa; try destruct reply; cbn; auto.
  - auto.
  - destruct (negb (truthy (trim hs))); try destruct reply; cbn; auto.
Qed.

Lemma run_finiteForm (events : list Event) (s : Screen) :
  Spec.finiteForm (templatePayload s) ->
  Spec.finiteForm (templatePayload (run B events s)).
Proof.
  revert s. induction events as [|e rest IH]; intros s H; simpl.
  - exact H.
  - apply IH, on_finiteForm, H.
Qed.


(** Once no question is on display, only [handleStartExam] brings one
    back, and no answer is submitted meanwhile. *)
Lemma on_completed (e : Event) (s : Screen) :
  isStartExam e = false ->
  currentQuestion s = None ->
  currentQuestion (exec (on B e) s) = None
  /\ Spec.submissions (calls (exec (on B e) s)) = Spec.submissions (calls s).
Proof.
  destruct s as [form ct aa cq ans lar sm hs h ld sf al cl].
  cbn. intros He ->.
  destruct e; try discriminate He; step_handler; auto.
  - destruct reply; cbn; unfold Spec.submissions; rewrite ?filter_app, ?app_nil_r; auto.
  - destruct aa; auto.
  - destruct aa; try destruct reply; cbn; unfold Spec.submissions;
      rewrite ?filter_app, ?app_nil_r; auto.
  - destruct (negb (truthy (trim hs))); try destruct reply; cbn;
      unfold Spec.submissions; rewrite ?filter_app, ?app_nil_r; auto.
Qed.

Lemma run_completed (events : list Event) (s : Screen) :
  forallb (fun e => negb (isStartExam e)) events = true ->
  currentQuestion s = None ->
  currentQuestion (run B events s) = None
  /\ Spec.submissions (calls (run B events s)) = Spec.submissions (calls s).
Proof.
  revert s. induction events as [|e rest IH]; intros s Hall Hq; simpl.
  - auto.
  - simpl in Hall. apply andb_prop in Hall as [He Hrest].
    apply negb_true_iff in He.
    destruct (on_completed e s He Hq) as [Hq' Hc'].
    destruct (IH _ Hrest Hq') as [Hq'' Hc''].
    split; [exact Hq'' | congruence].
Qed.

Lemma submit_without_question (reply : completion SubmitAnswerResponse.t)
  (s : Screen) :
  currentQuestion s = None -> exec (handleSubmitAnswer B reply) s = s.
Proof.
  destruct s as [form ct aa cq ans lar sm hs h ld sf al cl].
  cbn. intros ->. step_handler. destruct aa; reflexivity.
Qed.

Lemma disabled_without_question (s : Screen) :
  currentQuestion s = None -> disableAnswerSubmit s = true.
Proof.
  unfold disableAnswerSubmit. intros ->. reflexivity.
Qed.

End ExamScreenFacts.

Import ExamScreen.

(** C1. When the response to a submitted answer has no next question, no
    question is on display any more; and from then on, whatever happens on
    the screen short of [handleStartExam], none is on display, the submit
    control is disabled, [handleSubmitAnswer] returns at once and leaves the
    screen as it is, and no further answer is submitted. *)
Theorem completed_attempt_takes_no_answer
  (B : Builtins) (s : Screen) (attempt : StartExamResponse.t)
  (q : ExamQuestion.t) (response : SubmitAnswerResponse.t)
  (events : list Event) :
  activeAttempt s = Some attempt ->
  currentQuestion s = Some q ->
  SubmitAnswerResponse.nextQuestion response = None ->
  forallb (fun e => negb (isStartExam e)) events = true ->
  let completed := exec (handleSubmitAnswer B (Returned response)) s in
  let later := run B events completed in
  currentQuestion completed = None
  /\ currentQuestion later = None
  /\ disableAnswerSubmit later = true
  /\ (forall reply, exec (handleSubmitAnswer B reply) later = later)
  /\ Spec.submissions (calls later) = Spec.submissions (calls completed).
Proof.
  intros Ha Hq Hnext Hall completed later.
  assert (Hdone : currentQuestion completed = None).
  { subst completed.
    destruct s as [form ct aa cq ans lar sm hs h ld sf al cl].
    cbn in Ha, Hq. subst aa cq. step_handler. rewrite Hnext. reflexivity. }
  destruct (run_completed B events completed Hall Hdone) as [Hlater Hcalls].
  repeat split; auto.
  - apply disabled_without_question; exact Hlater.
  - intros reply. apply submit_without_question; exact Hlater.
Qed.

Lemma completed_attempt_takes_no_answer_witness :
  let s := Sample.answering (Sample.question MultipleChoice)
             (AnswerState.mk "2" "" "30") in
  let completed :=
    exec (handleSubmitAnswer Sample.builtins (Returned Sample.lastAnswer)) s in
  let later :=
    run Sample.builtins
      [SelectOption (int 1); SubmitAnswer (Returned Sample.lastAnswer);
       FetchSummary (Raised NetworkFailure)] completed in
  currentQuestion completed = None
  /\ currentQuestion later = None
  /\ disableAnswerSubmit later = true
  /\ (forall reply, exec (handleSubmitAnswer Sample.builtins reply) later = later)
  /\ Spec.submissions (calls later) = Spec.submissions (calls completed).
Proof.
  apply (completed_attempt_takes_no_answer Sample.builtins
           (Sample.answering (Sample.question MultipleChoice)
              (AnswerState.mk "2" "" "30"))
           Sample.attempt (Sample.question MultipleChoice) Sample.lastAnswer);
    reflexivity.
Defined.

(** C2. With an attempt in progress and a question on display,
    [handleSubmitAnswer] sends one request for that question: for a
    multiple-choice question it carries the selected option as a finite
    number and no free text; for any other type it carries no option and
    the entered text trimmed, or nothing when that is empty; and the time
    taken is the larger of 0 and the entered number: a finite number that
    is at least 0, the entered one when that is not negative and 0 when it
    is. *)
Theorem submitted_answer_is_well_formed
  (B : Builtins) (s : Screen) (reply : completion SubmitAnswerResponse.t)
  (attempt : StartExamResponse.t) (q : ExamQuestion.t) :
  activeAttempt s = Some attempt ->
  currentQuestion s = Some q ->
  exists request,
    calls (exec (handleSubmitAnswer B reply) s)
    = calls s ++ [submitExamAnswer (StartExamResponse.attemptId attempt) request]
    /\ SubmitAnswerRequest.questionId request = ExamQuestion.id q
    /\ (ExamQuestion.type q = MultipleChoice ->
        SubmitAnswerRequest.selectedOptionId request
        = Some (toNumber B (AnswerState.selectedOptionId (answerState s)))
        /\ isFinite (toNumber B (AnswerState.selectedOptionId (answerState s)))
           = true
        /\ SubmitAnswerRequest.freeTextAnswer request = None)
    /\ (ExamQuestion.type q <> MultipleChoice ->
        SubmitAnswerRequest.selectedOptionId request = None
        /\ SubmitAnswerRequest.freeTextAnswer request
           = match trim (AnswerState.freeTextAnswer (answerState s)) with
             | EmptyString => None
             | text => Some text
             end)
    /\ le (int 0) (SubmitAnswerRequest.timeTakenSeconds request)
    /\ isFinite (SubmitAnswerRequest.timeTakenSeconds request) = true
    /\ (le (int 0) (toNumber B (AnswerState.timeTakenSeconds (answerState s))) ->
        SubmitAnswerRequest.timeTakenSeconds request
        = toNumber B (AnswerState.timeTakenSeconds (answerState s)))
    /\ SubmitAnswerRequest.timeTakenSeconds request
       = Math_max (int 0)
           (toNumber B (AnswerState.timeTakenSeconds (answerState s)))
    /\ (~ le (int 0) (toNumber B (AnswerState.timeTakenSeconds (answerState s))) ->
        SubmitAnswerRequest.timeTakenSeconds request = int 0).
Proof.
  intros Ha Hq.
  destruct s as [form ct aa cq ans lar sm hs h ld sf al cl].
  cbn in Ha, Hq. subst aa cq. cbn [answerState calls].
  eexists. split.
  - step_handler.
    destruct reply as [response|e];
      [destruct (SubmitAnswerResponse.nextQuestion response)|]; reflexivity.
  - cbn [SubmitAnswerRequest.questionId SubmitAnswerRequest.selectedOptionId
         SubmitAnswerRequest.freeTextAnswer SubmitAnswerRequest.timeTakenSeconds].
    repeat split.
    + rewrite H; reflexivity.
    + apply toNumber_finite.
    + rewrite H; reflexivity.
    + destruct (ExamQuestion.type q); [congruence | reflexivity | reflexivity].
    + destruct (ExamQuestion.type q); [congruence | |]; cbn;
        unfold orNull; destruct (trim _); reflexivity.
    + apply Math_max_finite_le, toNumber_finite.
    + apply Math_max_finite, toNumber_finite.
    + intros H. apply Math_max_keeps; [exact H | apply toNumber_finite].
    + intros H. apply Math_max_raises; [exact H | apply toNumber_finite].
Qed.

Lemma submitted_answer_is_well_formed_witness :
  exists request,
    calls (exec (handleSubmitAnswer Sample.builtins (Raised NetworkFailure))
             (Sample.answering (Sample.question ShortAnswer)
                (AnswerState.mk "" "  x = 1 " "12")))
    = [submitExamAnswer (int 42) request]
    /\ SubmitAnswerRequest.selectedOptionId request = None
    /\ SubmitAnswerRequest.freeTextAnswer request = Some "x = 1"
    /\ SubmitAnswerRequest.timeTakenSeconds request = int 12.
Proof.
  destruct (submitted_answer_is_well_formed Sample.builtins
              (Sample.answering (Sample.question ShortAnswer)
                 (AnswerState.mk "" "  x = 1 " "12"))
              (Raised NetworkFailure) Sample.attempt
              (Sample.question ShortAnswer) eq_refl eq_refl)
    as (request & Hcalls & _ & _ & Hfree & _ & _ & Htime & _).
  exists request. split; [exact Hcalls|].
  destruct Hfree as [Hoption Htext]; [discriminate|].
  split; [exact Hoption|]. split; [exact Htext|].
  apply Htime. cbn. discriminate.
Defined.

(** C3. Whatever has happened on the screen since it was mounted,
    [handleCreateTemplate] always sends one request; the payload is the form
    with [totalQuestions] and [durationMinutes] each replaced by the larger
    of 1 and itself, so both are at least 1; and when the call succeeds the
    created template is stored and the attempt, the question and the
    summary are emptied. *)
Theorem created_template_is_clamped
  (B : Builtins) (events : list Event)
  (reply : completion ExamTemplateResponse.t) :
  let s := run B events initial in
  let s' := exec (handleCreateTemplate B reply) s in
  let form := templatePayload s in
  exists payload,
    calls s' = calls s ++ [createExamTemplate payload]
    /\ ExamTemplateRequest.totalQuestions payload
       = Math_max (int 1) (ExamTemplateRequest.totalQuestions form)
    /\ ExamTemplateRequest.durationMinutes payload
       = Math_max (int 1) (ExamTemplateRequest.durationMinutes form)
    /\ le (int 1) (ExamTemplateRequest.totalQuestions payload)
    /\ le (int 1) (ExamTemplateRequest.durationMinutes payload)
    /\ ExamTemplateRequest.name payload = ExamTemplateRequest.name form
    /\ ExamTemplateRequest.subject payload = ExamTemplateRequest.subject form
    /\ ExamTemplateRequest.chapter payload = ExamTemplateRequest.chapter form
    /\ ExamTemplateRequest.adaptiveEnabled payload
       = ExamTemplateRequest.adaptiveEnabled form
    /\ (forall result, reply = Returned result ->
        createdTemplate s' = Some result
        /\ activeAttempt s' = None
        /\ currentQuestion s' = None
        /\ summary s' = None).
Proof.
  intros s s' form.
  assert (Hfinite : Spec.finiteForm form).
  { apply run_finiteForm. split; reflexivity. }
  subst s' form. destruct Hfinite as [Ht Hd]. revert Ht Hd.
  generalize s. clear s.
  intros [form ct aa cq ans lar sm hs h ld sf al cl]. cbn. intros Ht Hd.
  eexists. split.
  - step_handler. destruct reply; reflexivity.
  - cbn [ExamTemplateRequest.totalQuestions ExamTemplateRequest.durationMinutes
         ExamTemplateRequest.name ExamTemplateRequest.subject
         ExamTemplateRequest.chapter ExamTemplateRequest.adaptiveEnabled].
    do 2 (split; [reflexivity|]).
    do 2 (split; [apply Math_max_finite_le; assumption|]).
    do 4 (split; [reflexivity|]).
    intros result ->. step_handler. repeat split.
Qed.

Lemma created_template_is_clamped_witness :
  let s := run Sample.builtins
             [TemplateChange Kname "Algebra";
              TemplateChange KtotalQuestions "0";
              TemplateChange KdurationMinutes "minutes"] initial in
  let s' := exec (handleCreateTemplate Sample.builtins
                    (Returned Sample.template)) s in
  calls s'
  = [createExamTemplate
       (ExamTemplateRequest.mk "Algebra" "" "" (int 1) (int 1) true)]
  /\ createdTemplate s' = Some Sample.template
  /\ activeAttempt s' = None
  /\ currentQuestion s' = None
  /\ summary s' = None.
Proof.
  destruct (created_template_is_clamped Sample.builtins
              [TemplateChange Kname "Algebra";
               TemplateChange KtotalQuestions "0";
               TemplateChange KdurationMinutes "minutes"]
              (Returned Sample.template))
    as (payload & Hcalls & _ & _ & _ & _ & _ & _ & _ & _ & Hstored).
  split; [reflexivity | exact (Hstored Sample.template eq_refl)].
Defined.

Ltac called e :=
  split;
  [ reflexivity
  | split;
    [ right; eexists; reflexivity
    | intros ? _; destruct e; reflexivity ] ].

Ltac stopped Hnone :=
  split;
  [ reflexivity
  | split;
    [ left; reflexivity
    | let H := fresh in intros ? H; destruct (Hnone _ _ H) ] ].

(** C4. When the call made by one of the five requests of the exam
    workflow fails, the created template, the attempt, the question, the
    last answer, the summary and the history are what they were before, and
    the failure is shown in an alert, with the message of the error object
    when there is one and a fixed message otherwise. A request that stops at
    its own check makes no call and leaves the same six values alone. *)
Theorem failed_call_leaves_workflow
  (B : Builtins) (s : Screen) (ev : Event) (e : thrown) :
  Spec.fails ev e ->
  let s' := exec (on B ev) s in
  workflow s' = workflow s
  /\ (calls s' = calls s \/ exists call, calls s' = calls s ++ [call])
  /\ (forall call, calls s' = calls s ++ [call] ->
      alerts s' = alerts s ++ [("Request failed", Spec.surfaced e)]).
Proof.
  intros Hfails s'. subst s'.
  destruct s as [form ct aa cq ans lar sm hs h ld sf al cl].
  assert (Hnone : forall (call : ApiCall) l, l = l ++ [call] -> False).
  { intros call l H. apply (f_equal (@length _)) in H.
    rewrite length_app in H. simpl in H. lia. }
  destruct Hfails as [ -> | [ -> | [ -> | [ -> | -> ] ] ] ];
    step_handler; unfold workflow; cbn.
  - called e.
  - destruct (negb (truthy (StartForm.studentId sf))
              || negb (truthy (StartForm.examTemplateId sf))); cbn;
      [stopped Hnone | called e].
  - destruct aa, cq; cbn; [called e | stopped Hnone ..].
  - destruct aa; cbn; [called e | stopped Hnone].
  - destruct (negb (truthy (trim hs))); cbn; [stopped Hnone | called e].
Qed.

Lemma failed_call_leaves_workflow_witness :
  let s := Sample.answering (Sample.question ShortAnswer)
             (AnswerState.mk "" "x = 1" "12") in
  let e := ApiError 500 "Server exploded" in
  let s' := exec (on Sample.builtins (SubmitAnswer (Raised e))) s in
  workflow s' = workflow s
  /\ alerts s' = [("Request failed", "Server exploded")].
Proof.
  destruct (failed_call_leaves_workflow Sample.builtins
              (Sample.answering (Sample.question ShortAnswer)
                 (AnswerState.mk "" "x = 1" "12"))
              (SubmitAnswer (Raised (ApiError 500 "Server exploded")))
              (ApiError 500 "Server exploded")
              (or_intror (or_intror (or_introl eq_refl))))
    as (Hsame & _ & Halert).
  split; [exact Hsame|].
  exact (Halert _ eq_refl).
Defined.

(** ** The chat screen *)

(** Running a handler on a chat screen given by its cells. *)
Ltac step_chat :=
  cbv beta iota zeta delta [ChatScreen.on ChatScreen.handleSend
    ChatScreen.acceptFollowUp ChatScreen.onTimeout ChatScreen.loadHistory
    ChatScreen.dispatch ChatScreen.reducer ChatScreen.setSessionId
    ChatScreen.setInput ChatScreen.setIsTyping ChatScreen.setIsHistoryLoading
    ChatScreen.setFollowUpQuestion ChatScreen.setTimeout ChatScreen.sessionId
    ChatScreen.input ChatScreen.isTyping ChatScreen.isHistoryLoading
    ChatScreen.followUpQuestion ChatScreen.messages ChatScreen.timers].


Section ChatScreenFacts.

Import ChatScreen.

Variable B : Builtins.
Variable loadTime : string.
Variable renderDate : string -> option string.

Lemma visit_app (now : string) (mapped : list ChatMessage.t)
  (entry : ChatHistoryItem.t) (index : nat) :
  visit B renderDate now mapped entry index
  = mapped ++ visit B renderDate now [] entry index.
Proof.
  unfold visit.
  destruct (truthy (ChatHistoryItem.message entry));
    destruct (ChatHistoryItem.reply entry) as [reply|];
    try destruct (truthy reply); cbn;
    rewrite <- ?app_assoc, ?app_nil_r; reflexivity.
Qed.

Lemma forEach_acc (now : string) (items : list ChatHistoryItem.t)
  (index : nat) (mapped : list ChatMessage.t) :
  forEach B renderDate now items index mapped
  = mapped ++ forEach B renderDate now items index [].
Proof.
  revert index mapped.
  induction items as [|entry rest IH]; intros index mapped; simpl.
  - rewrite app_nil_r. reflexivity.
  - rewrite IH. rewrite (IH _ (visit B renderDate now [] entry index)).
    rewrite visit_app, app_assoc. reflexivity.
Qed.

Lemma forEach_app (now : string) (before after : list ChatHistoryItem.t)
  (index : nat) :
  forEach B renderDate now (before ++ after) index []
  = forEach B renderDate now before index []
    ++ forEach B renderDate now after (index + length before) [].
Proof.
  revert index.
  induction before as [|entry rest IH]; intros index; simpl.
  - rewrite Nat.add_0_r. reflexivity.
  - rewrite forEach_acc, IH.
    rewrite (forEach_acc now rest (S index) (visit _ _ _ _ _ _)).
    rewrite <- app_assoc. do 3 f_equal. lia.
Qed.

Lemma forEach_silent (now : string) (items : list ChatHistoryItem.t)
  (index : nat) :
  Forall Spec.silent items -> forEach B renderDate now items index [] = [].
Proof.
  intros H. revert index.
  induction H as [|entry rest [Hmessage Hreply] _ IH]; intros index; simpl.
  - reflexivity.
  - unfold visit. rewrite Hmessage.
    destruct Hreply as [-> | ->]; cbn; apply IH.
Qed.


Lemma mapHistoryToMessages_not_empty (now : string)
  (items : list ChatHistoryItem.t) :
  mapHistoryToMessages B loadTime renderDate now items <> [].
Proof.
  unfold mapHistoryToMessages.
  destruct (forEach B renderDate now items 0 []) eqn:E; cbn; discriminate.
Qed.

Lemma handleSend_messages (textToSend : option string)
  (userStamp botStamp : Stamp.t) (reply : completion SendChatResponse.t)
  (s : Chat) :
  messages s <> [] ->
  messages (handleSend textToSend userStamp botStamp reply s) <> [].
Proof.
  destruct s as [sid inp typing loading prompt msgs pending]. cbn. intros H.
  step_chat.
  destruct (negb (truthy _)); [exact H|].
  destruct reply as [response|e].
  - destruct (present (SendChatResponse.sessionId response));
      destruct (present (SendChatResponse.followUpQuestion response) && _);
      cbn; intros E; apply app_eq_nil in E as [_ E]; discriminate.
  - cbn. intros E. apply app_eq_nil in E as [_ E]; discriminate.
Qed.

Lemma on_messages (e : Event) (s : Chat) :
  messages s <> [] -> messages (on B loadTime renderDate e s) <> [].
Proof.
  intros H. destruct e; cbn [on].
  - destruct s; exact H.
  - apply handleSend_messages, H.
  - unfold acceptFollowUp.
    destruct (followUpQuestion s) as [prompt|]; [|exact H].
    destruct (truthy prompt); [|exact H].
    apply handleSend_messages. destruct s; exact H.
  - destruct s as [sid inp typing loading prompt msgs pending].
    step_chat. destruct pending; [exact H|].
    cbn. intros E. apply app_eq_nil in E as [_ E]; discriminate.
  - destruct s as [sid inp typing loading prompt msgs pending].
    cbn in H. step_chat.
    destruct recent as [recentSession|]; [|destruct mounted1; exact H].
    destruct mounted1; cbn; [|exact H].
    destruct (present recentSession); [|exact H].
    destruct fetched as [items|]; [|destruct mounted2; exact H].
    destruct mounted2; cbn; [|exact H].
    apply mapHistoryToMessages_not_empty.
Qed.

Lemma run_messages (events : list Event) (s : Chat) :
  messages s <> [] -> messages (run B loadTime renderDate events s) <> [].
Proof.
  revert s. induction events as [|e rest IH]; intros s H; simpl.
  - exact H.
  - apply IH, on_messages, H.
Qed.

End ChatScreenFacts.

Import ChatScreen.

Lemma disagreement_test (t : string) :
  (t =? "no")%string || (t =? "nope")%string || (t =? "disagree")%string
  || (t =? "i disagree")%string || startsWith t "no "
  || startsWith t "i don't" = true
  <-> (t = "no" \/ t = "nope" \/ t = "disagree" \/ t = "i disagree"
       \/ (exists rest, t = ("no " ++ rest)%string)
       \/ (exists rest, t = ("i don't" ++ rest)%string)).
Proof.
  rewrite !orb_true_iff, !String.eqb_eq, !startsWith_iff. tauto.
Qed.

(** C7. A send whose response carries a follow-up suggestion leaves no
    pending prompt when the text just sent, in lower case and trimmed, is
    "no", "nope", "disagree" or "i disagree" or starts with "no " or with
    "i don't"; otherwise the suggestion is the pending prompt, whatever
    prompt was pending before. So "No", "NOPE", "I Disagree" and
    "i don't think so" leave no prompt, and "Yes please" leaves the
    suggestion. *)
Theorem follow_up_prompt_after_send
  (userStamp botStamp : Stamp.t) (response : SendChatResponse.t)
  (suggestion : string) (s : Chat) :
  SendChatResponse.followUpQuestion response = Some suggestion ->
  suggestion <> "" ->
  (forall textToSend text,
     text = match textToSend with
            | Some given => given
            | None => trim (input s)
            end ->
     text <> "" ->
     let s' := handleSend textToSend userStamp botStamp (Returned response) s in
     (Spec.disagrees text -> followUpQuestion s' = None)
     /\ (~ Spec.disagrees text -> followUpQuestion s' = Some suggestion))
  /\ (forall text,
        In text ["No"; "NOPE"; "I Disagree"; "i don't think so"] ->
        followUpQuestion
          (handleSend (Some text) userStamp botStamp (Returned response) s)
        = None)
  /\ followUpQuestion
       (handleSend (Some "Yes please") userStamp botStamp (Returned response) s)
     = Some suggestion.
Proof.
  intros Hcarried Hsuggestion.
  assert (Hpresent : present (SendChatResponse.followUpQuestion response) = true).
  { rewrite Hcarried. apply truthy_true_iff, Hsuggestion. }
  destruct s as [sid inp typing loading prompt msgs pending].
  split; [|split].
  - intros textToSend text Htext Hsent. cbn [input] in Htext.
    unfold Spec.disagrees. rewrite <- disagreement_test.
    step_chat. rewrite <- Htext.
    apply truthy_true_iff in Hsent. rewrite Hsent. cbn [negb]. cbv iota.
    rewrite Hpresent. cbn [andb].
    match goal with
    | |- context [negb ?test] => destruct test
    end; cbn [negb]; cbv iota;
      (destruct (present (SendChatResponse.sessionId response)));
      cbn; rewrite ?Hcarried; split; congruence.
  - intros text Hin. step_chat.
    cbn in Hin.
    destruct Hin as [<- | [<- | [<- | [<- | []]]]]; cbn;
      rewrite Hpresent; cbn;
      destruct (present (SendChatResponse.sessionId response)); reflexivity.
  - step_chat. cbn. rewrite Hpresent. cbn.
    destruct (present (SendChatResponse.sessionId response)); cbn;
      exact Hcarried.
Qed.

Lemma follow_up_prompt_after_send_witness :
  let s := mkChat (Some "s-1") "" false false (Some "Shall we go on?")
             (initialMessages "10:00") [] in
  let response := Sample.suggestion "Want a quiz?" in
  let after text :=
    followUpQuestion
      (handleSend (Some text) (Sample.stamp "1") (Sample.stamp "2")
         (Returned response) s) in
  after "  No, thanks " = Some "Want a quiz?"
  /\ after " No thanks " = None
  /\ after "No" = None
  /\ after "Yes please" = Some "Want a quiz?".
Proof.
  intros s response after.
  destruct (follow_up_prompt_after_send (Sample.stamp "1") (Sample.stamp "2")
              response "Want a quiz?" s eq_refl)
    as (Hgeneral & Hnames & Hyes); [discriminate|].
  split.
  { apply (Hgeneral (Some "  No, thanks ") _ eq_refl); [discriminate|].
    unfold Spec.disagrees. cbn.
    intros [H|[H|[H|[H|[[rest H]|[rest H]]]]]]; discriminate H. }
  split.
  { apply (Hgeneral (Some " No thanks ") _ eq_refl); [discriminate|].
    unfold Spec.disagrees. cbn.
    right; right; right; right; left. exists "thanks". reflexivity. }
  split; [apply Hnames; left; reflexivity | exact Hyes].
Defined.

(** C8, as the specification words it, fails: a [reply] field that is
    present but empty is passed over, and the bot message shows the
    [answer] field. *)
Lemma reply_field_is_not_always_preferred :
  ~ (forall (response : SendChatResponse.t) (userStamp botStamp : Stamp.t)
       (s : Chat),
       timers (handleSend (Some "hi") userStamp botStamp (Returned response) s)
       = timers s
         ++ [ChatMessage.mk (Stamp.id botStamp) (Spec.replyText response) bot
               (Stamp.time botStamp)]).
Proof.
  intros H.
  specialize (H (SendChatResponse.mk None None None (Some "") None None
                   (Some "42") None)
                (Sample.stamp "1") (Sample.stamp "2")
                (initial "10:00")).
  discriminate H.
Qed.

Lemma onTimeout_iter (k : nat) (s : Chat) :
  messages (Nat.iter k onTimeout s) = messages s ++ firstn k (timers s)
  /\ timers (Nat.iter k onTimeout s) = skipn k (timers s).
Proof.
  revert s. induction k as [|k IH]; intros s.
  - cbn. rewrite app_nil_r. auto.
  - rewrite Nat.iter_succ_r.
    destruct (IH (onTimeout s)) as [Hm Ht]. rewrite Hm, Ht. clear IH Hm Ht.
    destruct s as [sid inp typing loading prompt msgs pending].
    step_chat. destruct pending as [|botMsg later]; cbn.
    + rewrite firstn_nil, skipn_nil. auto.
    + rewrite <- app_assoc. auto.
Qed.

(** C8, amended. A successful send adds the user's message to the
    transcript and schedules one bot message behind the ones already
    scheduled; the timers add the scheduled messages in that order, so the
    bot message of this send is added after the user's message and after
    the replies that were still scheduled, and right after the user's
    message when none was. The text of the bot message is the [reply]
    field when that is present and not empty; else the [answer] field when
    that is present and not empty; else ["No response from server."]. *)
Theorem bot_reply_text
  (textToSend : option string) (text : string) (userStamp botStamp : Stamp.t)
  (response : SendChatResponse.t) (s : Chat) :
  text = match textToSend with
         | Some given => given
         | None => trim (input s)
         end ->
  text <> "" ->
  exists shownText,
    let sent := handleSend textToSend userStamp botStamp (Returned response) s in
    let userMsg :=
      ChatMessage.mk (Stamp.id userStamp) text user (Stamp.time userStamp) in
    let botMsg :=
      ChatMessage.mk (Stamp.id botStamp) shownText bot (Stamp.time botStamp) in
    let settled := Nat.iter (S (length (timers s))) onTimeout sent in
    messages sent = messages s ++ [userMsg]
    /\ timers sent = timers s ++ [botMsg]
    /\ messages settled = messages s ++ [userMsg] ++ timers s ++ [botMsg]
    /\ timers settled = []
    /\ (timers s = [] ->
        messages (onTimeout sent) = messages s ++ [userMsg; botMsg])
    /\ (forall reply, SendChatResponse.reply response = Some reply ->
        reply <> "" -> shownText = reply)
    /\ (forall answer, Spec.blank (SendChatResponse.reply response) ->
        SendChatResponse.answer response = Some answer -> answer <> "" ->
        shownText = answer)
    /\ (Spec.blank (SendChatResponse.reply response) ->
        Spec.blank (SendChatResponse.answer response) ->
        shownText = "No response from server.").
Proof.
  intros Hfinal Htext.
  exists (orElse (SendChatResponse.reply response)
            (orElse (SendChatResponse.answer response)
               "No response from server.")).
  cbv zeta.
  set (userMsg :=
         ChatMessage.mk (Stamp.id userStamp) text user (Stamp.time userStamp)).
  set (botMsg :=
         ChatMessage.mk (Stamp.id botStamp)
           (orElse (SendChatResponse.reply response)
              (orElse (SendChatResponse.answer response)
                 "No response from server."))
           bot (Stamp.time botStamp)).
  assert (Hsent :
    messages (handleSend textToSend userStamp botStamp (Returned response) s)
    = messages s ++ [userMsg]
    /\ timers (handleSend textToSend userStamp botStamp (Returned response) s)
       = timers s ++ [botMsg]).
  { subst userMsg botMsg.
    destruct s as [sid inp typing loading prompt msgs pending].
    cbn [input] in Hfinal. apply truthy_true_iff in Htext.
    step_chat. rewrite <- Hfinal, Htext. cbn [negb]. cbv iota.
    destruct (present (SendChatResponse.sessionId response));
      destruct (present (SendChatResponse.followUpQuestion response) && _);
      cbn; split; reflexivity. }
  destruct Hsent as [Hmessages Htimers].
  destruct (onTimeout_iter (S (length (timers s)))
              (handleSend textToSend userStamp botStamp (Returned response) s))
    as [Hsettled Hdrained].
  split; [exact Hmessages|]. split; [exact Htimers|].
  split.
  { rewrite Hsettled, Hmessages, Htimers.
    rewrite firstn_all2 by (rewrite length_app; cbn; lia).
    rewrite <- app_assoc. reflexivity. }
  split.
  { rewrite Hdrained, Htimers.
    apply skipn_all2. rewrite length_app. cbn. lia. }
  split.
  { intros Hquiet.
    destruct (onTimeout_iter 1
                (handleSend textToSend userStamp botStamp (Returned response) s))
      as [Hone _].
    cbn [Nat.iter nat_rect] in Hone. rewrite Hone, Hmessages, Htimers, Hquiet.
    cbn. rewrite <- app_assoc. reflexivity. }
  unfold Spec.blank, orElse.
  destruct (SendChatResponse.reply response) as [[|c reply]|];
    destruct (SendChatResponse.answer response) as [[|d answer]|]; cbn;
    repeat split; intros; intuition congruence.
Qed.

Lemma bot_reply_text_witness :
  let answerOnly :=
    SendChatResponse.mk None None None None None None (Some "42") None in
  let earlier := ChatMessage.mk "0" "Still thinking" bot "09:59" in
  messages
    (Nat.iter 2 onTimeout
       (handleSend (Some "6 x 7?") (Sample.stamp "1") (Sample.stamp "2")
          (Returned answerOnly) (setTimeout earlier (initial "10:00"))))
  = initialMessages "10:00"
    ++ [ChatMessage.mk "1" "6 x 7?" user "10:00"; earlier;
        ChatMessage.mk "2" "42" bot "10:00"].
Proof.
  intros answerOnly earlier.
  destruct (bot_reply_text (Some "6 x 7?") "6 x 7?" (Sample.stamp "1")
              (Sample.stamp "2") answerOnly
              (setTimeout earlier (initial "10:00")) eq_refl)
    as (shownText & _ & _ & Hsettled & _ & _ & _ & Hanswer & _);
    [discriminate|].
  cbn [timers setTimeout initial length app] in Hsettled.
  rewrite Hsettled.
  rewrite (Hanswer "42"); [reflexivity | left; reflexivity | reflexivity
                          | discriminate].
Defined.

(** C9. Every entry of the history that has a message and a reply, both
    not empty, gives two messages next to each other in the transcript, the
    user's message first and the bot's reply second, after everything the
    entries before it give and before everything the entries after it give;
    a history made of such entries only gives twice as many messages as it
    has entries. The history
    [[{id: 1, message: "hi", reply: "hello", timestamp: T}]] gives
    [user "hi"] then [bot "hello"]. *)
Theorem hydration_keeps_pairs_in_order
  (B : Builtins) (loadTime : string) (renderDate : string -> option string)
  (now : string) :
  (forall before entry after reply,
     ChatHistoryItem.message entry <> "" ->
     ChatHistoryItem.reply entry = Some reply ->
     reply <> "" ->
     map Spec.shown
       (mapHistoryToMessages B loadTime renderDate now
          (before ++ entry :: after))
     = map Spec.shown (forEach B renderDate now before 0 [])
       ++ [(user, ChatHistoryItem.message entry); (bot, reply)]
       ++ map Spec.shown
            (forEach B renderDate now after (S (length before)) []))
  /\ (forall items,
        items <> [] ->
        Forall (fun entry =>
                  ChatHistoryItem.message entry <> ""
                  /\ exists reply,
                       ChatHistoryItem.reply entry = Some reply
                       /\ reply <> "") items ->
        length (mapHistoryToMessages B loadTime renderDate now items)
        = 2 * length items)
  /\ (forall T,
        map Spec.shown
          (mapHistoryToMessages B loadTime renderDate now
             [ChatHistoryItem.mk (Some (inl (int 1))) "hi" (Some "hello")
                (Some T)])
        = [(user, "hi"); (bot, "hello")]).
Proof.
  assert (Hpair : forall entry reply index,
            ChatHistoryItem.message entry <> "" ->
            ChatHistoryItem.reply entry = Some reply ->
            reply <> "" ->
            exists u b,
              visit B renderDate now [] entry index = [u; b]
              /\ Spec.shown u = (user, ChatHistoryItem.message entry)
              /\ Spec.shown b = (bot, reply)).
  { intros entry reply index Hm Hr Hreply. unfold visit.
    apply truthy_true_iff in Hm. apply truthy_true_iff in Hreply.
    rewrite Hm, Hr, Hreply. cbn. eexists. eexists.
    split; [reflexivity|]. split; reflexivity. }
  split; [|split].
  - intros before entry after reply Hm Hr Hreply.
    unfold mapHistoryToMessages.
    rewrite forEach_app. cbn [forEach].
    rewrite (forEach_acc B renderDate now after (S (0 + length before))
               (visit B renderDate now [] entry (0 + length before))).
    destruct (Hpair entry reply (0 + length before) Hm Hr Hreply)
      as (u & b & -> & Hu & Hb).
    assert (Hsome : forall x y : list ChatMessage.t,
              (length (x ++ [u; b] ++ y) =? 0)%nat = false).
    { intros x y. rewrite length_app. cbn [length app].
      rewrite Nat.add_succ_r. reflexivity. }
    cbv zeta. rewrite Hsome.
    rewrite !map_app. cbn [map app]. rewrite Hu, Hb. reflexivity.
  - intros items Hsome Hall.
    assert (Hlen : forall index,
              length (forEach B renderDate now items index [])
              = 2 * length items).
    { clear Hsome. induction Hall as [|entry rest [Hm (reply & Hr & Hreply)] _ IH];
        intros index; cbn [forEach length].
      - reflexivity.
      - rewrite forEach_acc, length_app, IH.
        destruct (Hpair entry reply index Hm Hr Hreply) as (u & b & -> & _).
        cbn [length]. lia. }
    unfold mapHistoryToMessages. cbv zeta. rewrite (Hlen 0).
    destruct (2 * length items)%nat eqn:E.
    + destruct items; [congruence | cbn in E; lia].
    + cbn [Nat.eqb]. apply Hlen.
  - intros T. reflexivity.
Qed.

Lemma hydration_keeps_pairs_in_order_witness :
  map Spec.shown
    (mapHistoryToMessages Sample.builtins "10:00" (fun _ => None) "10:01"
       [ChatHistoryItem.mk None "only a question" None None;
        ChatHistoryItem.mk (Some (inr "b")) "hi" (Some "hello") None;
        ChatHistoryItem.mk None "" (Some "only a reply") None])
  = [(user, "only a question"); (user, "hi"); (bot, "hello");
     (bot, "only a reply")].
Proof.
  refine (proj1 (hydration_keeps_pairs_in_order Sample.builtins "10:00"
                   (fun _ => None) "10:01")
            [ChatHistoryItem.mk None "only a question" None None]
            (ChatHistoryItem.mk (Some (inr "b")) "hi" (Some "hello") None)
            [ChatHistoryItem.mk None "" (Some "only a reply") None]
            "hello" _ eq_refl _); discriminate.
Defined.

(** C10. When the session is found and its history is fetched but gives
    no message to show (no entry, or only entries without a message and
    without a reply), the transcript becomes the greeting alone. And
    whatever happens on the chat screen since it was mounted, every send,
    every timer and every load of the history, whatever the calls answer,
    the transcript is never empty. *)
Theorem transcript_is_never_empty
  (B : Builtins) (loadTime : string) (renderDate : string -> option string) :
  (forall now sessionId items s,
     sessionId <> "" ->
     Forall Spec.silent items ->
     messages
       (loadHistory B loadTime renderDate now (Returned (Some sessionId))
          (Returned items) true true s)
     = initialMessages loadTime)
  /\ length (initialMessages loadTime) = 1
  /\ (forall events,
        messages (run B loadTime renderDate events (initial loadTime)) <> []).
Proof.
  split; [|split].
  - intros now sessionId items s Hid Hsilent.
    destruct s as [sid inp typing loading prompt msgs pending].
    apply truthy_true_iff in Hid.
    step_chat. cbn. rewrite Hid. cbn.
    unfold mapHistoryToMessages.
    rewrite forEach_silent by exact Hsilent. reflexivity.
  - reflexivity.
  - intros events. apply run_messages. discriminate.
Qed.

Lemma transcript_is_never_empty_witness :
  messages
    (loadHistory Sample.builtins "10:00" (fun _ => None) "10:01"
       (Returned (Some "s-1"))
       (Returned [ChatHistoryItem.mk None "" (Some "") None]) true true
       (initial "10:00"))
  = initialMessages "10:00".
Proof.
  apply (proj1 (transcript_is_never_empty Sample.builtins "10:00"
                  (fun _ => None))).
  - discriminate.
  - constructor; [|constructor]. split; [reflexivity | right; reflexivity].
Defined.

(* ===================================================================== *)
(** * Further behaviour of the code *)
(* ===================================================================== *)

(** ** More on the API clients *)

Lemma orElse_not_empty (a : option string) (b : string) :
  b <> "" -> orElse a b <> "".
Proof.
  intros Hb. unfold orElse. destruct a as [s|]; [|exact Hb].
  destruct (truthy s) eqn:E; [|exact Hb]. apply truthy_true_iff, E.
Qed.



(** X2. [request] returns a value on success statuses only, and on a
    success status what it does is fixed by the status and the body: for a
    204 status or an empty body it returns the empty object; for any other
    success status with a body that is not empty it returns what the JSON
    reader makes of the body, and raises when the body is not JSON. *)
Theorem request_returns_on_success_only
  (T : Type) (parse : JSON_parse T) (parseError : JSON_parse ErrorBody.t)
  (r : Response) :
  (forall result,
     request T parse parseError (Returned r) = Returned result -> ok r = true)
  /\ (ok r = true -> status r = 204%Z \/ body r = "" ->
      request T parse parseError (Returned r) = Returned EmptyObject)
  /\ (ok r = true -> status r <> 204%Z -> body r <> "" ->
      request T parse parseError (Returned r)
      = match parse (body r) with
        | Some v => Returned (Parsed v)
        | None =>
            Raised (ApiError (status r) ("Failed to parse JSON: " ++ body r))
        end).
Proof.
  unfold request, parseJson.
  split; [|split].
  - intros result. destruct (ok r); [reflexivity | discriminate].
  - intros -> Hempty. cbn [negb]. cbv iota.
    destruct (Z.eqb_spec (status r) 204) as [H204|H204]; [reflexivity|].
    destruct Hempty as [H|H]; [contradiction|]. rewrite H. reflexivity.
  - intros -> H204 Hbody. cbn [negb]. cbv iota.
    apply Z.eqb_neq in H204. rewrite H204.
    apply truthy_true_iff in Hbody. rewrite Hbody. reflexivity.
Qed.

(** X3. [sendChatMessage] raises in two cases only: the transport failed,
    and the failure is passed on, or the status is not a success status,
    and the error names the status. On a success status it always returns:
    what the JSON reader made of the body, or the body itself as [reply]
    when it is not JSON. *)
Theorem send_chat_message_outcomes
  (parse : JSON_parse SendChatResponse.t) (fetched : completion Response) :
  (forall e, fetched = Raised e -> sendChatMessage parse fetched = Raised e)
  /\ (forall r, fetched = Returned r -> ok r = false ->
      sendChatMessage parse fetched
      = Raised (Error "Error"
          ("Failed to send chat message (" ++ String_of_int (status r) ++ ")")))
  /\ (forall r, fetched = Returned r -> ok r = true ->
      exists response,
        sendChatMessage parse fetched = Returned response
        /\ (forall v, parse (body r) = Some v -> response = v)
        /\ (parse (body r) = None ->
            SendChatResponse.reply response = Some (body r)
            /\ SendChatResponse.sessionId response = None
            /\ SendChatResponse.answer response = None
            /\ SendChatResponse.followUpQuestion response = None)).
Proof.
  unfold sendChatMessage, JS.bind.
  split; [|split].
  - intros e ->. reflexivity.
  - intros r -> ->. reflexivity.
  - intros r -> ->. cbn [negb]. cbv iota.
    destruct (parse (body r)) as [v|]; eexists; (split; [reflexivity|]).
    + split; [intros v' [= ->]; reflexivity | discriminate].
    + split; [discriminate | intros _; repeat split].
Qed.

Lemma send_chat_message_outcomes_witness :
  sendChatMessage (fun _ => None)
    (Returned (mkResponse 503 "Service Unavailable" "busy"))
  = Raised (Error "Error" "Failed to send chat message (503)")
  /\ exists response,
       sendChatMessage (fun _ => None) (Returned (mkResponse 200 "OK" "Hello!"))
       = Returned response
       /\ SendChatResponse.reply response = Some "Hello!".
Proof.
  split.
  - exact (proj1 (proj2 (send_chat_message_outcomes (fun _ => None)
                           (Returned (mkResponse 503 "Service Unavailable"
                                        "busy")))) _ eq_refl eq_refl).
  - destruct (proj2 (proj2 (send_chat_message_outcomes (fun _ => None)
                              (Returned (mkResponse 200 "OK" "Hello!"))))
                _ eq_refl eq_refl)
      as (response & Hsent & _ & Hraw).
    exists response. split; [exact Hsent | exact (proj1 (Hraw eq_refl))].
Defined.

(** X4. [fetchChatHistory] returns the list under [messages], and the empty
    list when that field is missing; unlike [sendChatMessage] it raises on a
    body that is not JSON, as it does on a failed transport and on a
    non-success status. *)
Theorem fetch_chat_history_outcomes
  (parse : JSON_parse ChatHistoryResponse.t) (fetched : completion Response) :
  (forall items,
     fetchChatHistory parse fetched = Returned items <->
     exists r data,
       fetched = Returned r /\ ok r = true /\ parse (body r) = Some data
       /\ items = match ChatHistoryResponse.messages data with
                  | Some listed => listed
                  | None => []
                  end)
  /\ (forall e,
        fetchChatHistory parse fetched = Raised e <->
        fetched = Raised e
        \/ exists r,
             fetched = Returned r
             /\ ((ok r = false
                  /\ e = Error "Error"
                       ("Failed to fetch chat history ("
                        ++ String_of_int (status r) ++ ")"))
                 \/ (ok r = true /\ parse (body r) = None
                     /\ e = SyntaxError))).
Proof.
  unfold fetchChatHistory, JS.bind, json.
  destruct fetched as [r|e0].
  - destruct (ok r) eqn:Hok; cbn [negb]; cbv iota.
    + destruct (parse (body r)) as [data|] eqn:Hparse.
      * split.
        -- intros items. split.
           ++ intros H. exists r, data. repeat split; auto.
              destruct (ChatHistoryResponse.messages data); congruence.
           ++ intros (r' & data' & [= <-] & _ & Hd & ->).
              rewrite Hparse in Hd. injection Hd as <-.
              destruct (ChatHistoryResponse.messages data); reflexivity.
        -- intros e. split.
           ++ destruct (ChatHistoryResponse.messages data); discriminate.
           ++ intros [H | (r' & [= <-] & [(H & _) | (_ & H & _)])];
                congruence.
      * split.
        -- intros items. split; [discriminate|].
           intros (r' & data' & [= <-] & _ & Hd & _). congruence.
        -- intros e. split.
           ++ intros [= <-]. right. exists r. split; [reflexivity|].
              right. auto.
           ++ intros [H | (r' & [= <-] & [(H & _) | (_ & _ & ->)])];
                [discriminate H | congruence | reflexivity].
    + split.
      * intros items. split; [discriminate|].
        intros (r' & data' & [= <-] & H & _). congruence.
      * intros e. split.
        -- intros [= <-]. right. exists r. split; [reflexivity|].
           left. auto.
        -- intros [H | (r' & [= <-] & [(_ & ->) | (H & _)])];
             [discriminate H | reflexivity | congruence].
  - split.
    + intros items. split; [discriminate|].
      intros (r' & data' & H & _). discriminate H.
    + intros e. split.
      * intros [= <-]. left. reflexivity.
      * intros [[= <-] | (r' & H & _)]; [reflexivity | discriminate H].
Qed.

Lemma request_returns_on_success_only_witness :
  request unit (fun _ => Some tt) (fun _ => None)
    (Returned (mkResponse 201 "Created" "{}"))
  = Returned (Parsed tt)
  /\ request unit (fun _ => None) (fun _ => None)
       (Returned (mkResponse 200 "OK" "<html>"))
     = Raised (ApiError 200 "Failed to parse JSON: <html>")
  /\ request unit (fun _ => Some tt) (fun _ => None)
       (Returned (mkResponse 204 "No Content" "{}"))
     = Returned EmptyObject.
Proof.
  split; [|split].
  - refine (proj2 (proj2 (request_returns_on_success_only unit
                            (fun _ => Some tt) (fun _ => None)
                            (mkResponse 201 "Created" "{}"))) eq_refl _ _);
      discriminate.
  - refine (proj2 (proj2 (request_returns_on_success_only unit
                            (fun _ => None) (fun _ => None)
                            (mkResponse 200 "OK" "<html>"))) eq_refl _ _);
      discriminate.
  - refine (proj1 (proj2 (request_returns_on_success_only unit
                            (fun _ => Some tt) (fun _ => None)
                            (mkResponse 204 "No Content" "{}"))) eq_refl _).
    left. reflexivity.
Defined.

Lemma fetch_chat_history_outcomes_witness :
  fetchChatHistory
    (fun _ => Some (ChatHistoryResponse.mk (Some "success") None None None))
    (Returned (mkResponse 200 "OK" "{}"))
  = Returned []
  /\ fetchChatHistory (fun _ => None) (Returned (mkResponse 200 "OK" "<html>"))
     = Raised SyntaxError.
Proof.
  split.
  - apply (proj1 (fetch_chat_history_outcomes
                    (fun _ => Some (ChatHistoryResponse.mk (Some "success")
                                      None None None))
                    (Returned (mkResponse 200 "OK" "{}")))).
    eexists. eexists. repeat split.
  - apply (proj2 (fetch_chat_history_outcomes (fun _ => None)
                    (Returned (mkResponse 200 "OK" "<html>")))).
    right. eexists. split; [reflexivity|]. right. repeat split.
Defined.

(** ** More on the chat screen *)

Section ChatScreenBehaviour.

Import ChatScreen.

Variable B : Builtins.
Variable loadTime : string.
Variable renderDate : string -> option string.

(** X5. A send whose call fails, because the transport failed or the
    status is not a success status, adds the user's message and then the
    connection-error message of the bot at once: nothing is scheduled, the
    typing mark is off, no prompt is pending, the input is empty and the
    session id is the one from before. *)
Theorem failed_send_shows_connection_error
  (parse : JSON_parse SendChatResponse.t) (text : string)
  (userStamp botStamp : Stamp.t) (fetched : completion Response) (s : Chat) :
  text <> "" ->
  (forall r, fetched = Returned r -> ok r = false) ->
  let s' :=
    handleSend (Some text) userStamp botStamp (sendChatMessage parse fetched) s in
  messages s'
  = messages s
    ++ [Behaviour.userMessage userStamp text;
        Behaviour.connectionError botStamp]
  /\ timers s' = timers s
  /\ isTyping s' = false
  /\ followUpQuestion s' = None
  /\ input s' = ""
  /\ sessionId s' = sessionId s.
Proof.
  intros Htext Hfailed.
  assert (Hraised : exists e, sendChatMessage parse fetched = Raised e).
  { unfold sendChatMessage, JS.bind. destruct fetched as [r|e].
    - rewrite (Hfailed r eq_refl). eexists; reflexivity.
    - eexists; reflexivity. }
  destruct Hraised as [e ->].
  destruct s as [sid inp typing loading prompt msgs pending].
  apply truthy_true_iff in Htext.
  step_chat. rewrite Htext. cbn. rewrite <- app_assoc. repeat split.
Qed.

(** X6. When the call of a send succeeds with a body that is not JSON and
    not empty, the bot message scheduled shows that body as it is, and no
    prompt is pending. *)
Theorem plain_text_body_is_the_reply
  (parse : JSON_parse SendChatResponse.t) (text : string)
  (userStamp botStamp : Stamp.t) (r : Response) (s : Chat) :
  text <> "" ->
  ok r = true ->
  parse (body r) = None ->
  body r <> "" ->
  let s' :=
    handleSend (Some text) userStamp botStamp
      (sendChatMessage parse (Returned r)) s in
  timers s'
  = timers s
    ++ [ChatMessage.mk (Stamp.id botStamp) (body r) bot (Stamp.time botStamp)]
  /\ messages s' = messages s ++ [Behaviour.userMessage userStamp text]
  /\ followUpQuestion s' = None
  /\ sessionId s' = sessionId s.
Proof.
  intros Htext Hok Hparse Hbody.
  unfold sendChatMessage, JS.bind. rewrite Hok, Hparse. cbn [negb]. cbv iota.
  destruct s as [sid inp typing loading prompt msgs pending].
  apply truthy_true_iff in Htext. apply truthy_true_iff in Hbody.
  step_chat. rewrite Htext. cbn. rewrite Hbody. repeat split.
Qed.

(** X7. A load of the history never touches the input, the pending prompt,
    the typing mark or the scheduled messages. It changes the transcript
    only when a session id was found and the history was fetched while the
    component stayed mounted, and it changes the session id only to the id
    that was found. *)
Theorem load_history_touches_little
  (now : string) (recent : completion (option string))
  (fetched : completion (list ChatHistoryItem.t))
  (mounted1 mounted2 : bool) (s : Chat) :
  let s' := loadHistory B loadTime renderDate now recent fetched
              mounted1 mounted2 s in
  input s' = input s
  /\ followUpQuestion s' = followUpQuestion s
  /\ isTyping s' = isTyping s
  /\ timers s' = timers s
  /\ (messages s' <> messages s ->
      exists found items,
        recent = Returned (Some found) /\ found <> ""
        /\ fetched = Returned items
        /\ mounted1 = true /\ mounted2 = true
        /\ messages s'
           = mapHistoryToMessages B loadTime renderDate now items)
  /\ (sessionId s' <> sessionId s ->
      exists found,
        recent = Returned (Some found) /\ found <> "" /\ mounted1 = true
        /\ sessionId s' = Some found).
Proof.
  destruct s as [sid inp typing loading prompt msgs pending].
  step_chat.
  destruct recent as [[found|]|e]; destruct mounted1; cbn;
    try (repeat split; intros H; congruence).
  destruct (truthy found) eqn:Hfound; cbn;
    try (repeat split; intros H; congruence).
  apply truthy_true_iff in Hfound.
  destruct fetched as [items|e]; destruct mounted2; cbn;
    repeat split; try (intros H; congruence);
    intros _; eexists; try eexists; repeat split; auto.
Qed.

Lemma visit_worded (now : string) (entry : ChatHistoryItem.t) (index : nat) :
  Behaviour.worded (visit B renderDate now [] entry index).
Proof.
  unfold visit, Behaviour.worded.
  destruct (truthy (ChatHistoryItem.message entry)) eqn:Hm;
    destruct (ChatHistoryItem.reply entry) as [reply|];
    try destruct (truthy reply) eqn:Hr; cbn;
    repeat constructor; cbn; apply truthy_true_iff; assumption.
Qed.

Lemma forEach_worded (now : string) (items : list ChatHistoryItem.t)
  (index : nat) :
  Behaviour.worded (forEach B renderDate now items index []).
Proof.
  revert index. induction items as [|entry rest IH]; intros index; cbn [forEach].
  - constructor.
  - rewrite forEach_acc. apply Forall_app. split; [apply visit_worded | apply IH].
Qed.

Lemma mapHistoryToMessages_worded (now : string)
  (items : list ChatHistoryItem.t) :
  Behaviour.worded (mapHistoryToMessages B loadTime renderDate now items).
Proof.
  unfold mapHistoryToMessages. cbv zeta.
  destruct (length _ =? 0)%nat; [|apply forEach_worded].
  repeat constructor. cbn. discriminate.
Qed.

Lemma handleSend_worded (textToSend : option string)
  (userStamp botStamp : Stamp.t) (reply : completion SendChatResponse.t)
  (s : Chat) :
  Behaviour.worded (messages s) /\ Behaviour.worded (timers s) ->
  let s' := handleSend textToSend userStamp botStamp reply s in
  Behaviour.worded (messages s') /\ Behaviour.worded (timers s').
Proof.
  destruct s as [sid inp typing loading prompt msgs pending].
  cbn. intros [Hm Ht]. step_chat.
  destruct (truthy _) eqn:Htext; cbn [negb]; cbv iota; [|split; assumption].
  apply truthy_true_iff in Htext.
  assert (Huser : forall stamp text, text <> "" ->
            Behaviour.worded (msgs ++ [ChatMessage.mk stamp text user
                                        (Stamp.time userStamp)])).
  { intros stamp text H. apply Forall_app. split; [exact Hm|].
    repeat constructor. exact H. }
  destruct reply as [response|e].
  - destruct (present (SendChatResponse.sessionId response));
      destruct (present (SendChatResponse.followUpQuestion response) && _);
      cbn; (split; [apply Huser, Htext|]);
      (apply Forall_app; split; [exact Ht|]); repeat constructor; cbn;
      do 2 apply orElse_not_empty; discriminate.
  - cbn. split; [|exact Ht].
    rewrite <- app_assoc. apply Forall_app. split; [exact Hm|].
    repeat constructor; cbn; [exact Htext | discriminate].
Qed.

Lemma on_worded (e : Event) (s : Chat) :
  Behaviour.worded (messages s) /\ Behaviour.worded (timers s) ->
  let s' := on B loadTime renderDate e s in
  Behaviour.worded (messages s') /\ Behaviour.worded (timers s').
Proof.
  intros H. destruct e; cbn [on]; cbv zeta.
  - destruct s; exact H.
  - apply handleSend_worded, H.
  - unfold acceptFollowUp.
    destruct (followUpQuestion s) as [prompt|]; [|exact H].
    destruct (truthy prompt); [|exact H].
    apply handleSend_worded. destruct s; exact H.
  - destruct s as [sid inp typing loading prompt msgs pending].
    cbn in H. destruct H as [Hm Ht]. step_chat.
    destruct pending as [|botMsg later]; cbn; [split; assumption|].
    inversion Ht; subst. split; [|assumption].
    apply Forall_app. split; [assumption | repeat constructor; assumption].
  - destruct s as [sid inp typing loading prompt msgs pending].
    cbn in H. step_chat.
    destruct recent as [recentSession|]; [|destruct mounted1; exact H].
    destruct mounted1; cbn; [|exact H].
    destruct (present recentSession); [|exact H].
    destruct fetched as [items|]; [|destruct mounted2; exact H].
    destruct mounted2; cbn; [|exact H].
    split; [apply mapHistoryToMessages_worded | apply H].
Qed.

(** X8. No bubble is ever empty: whatever happens on the chat screen since
    it was mounted, every message of the transcript and every message still
    scheduled has a text that is not empty. *)
Theorem no_message_is_empty (events : list Event) :
  let s := run B loadTime renderDate events (initial loadTime) in
  Behaviour.worded (messages s) /\ Behaviour.worded (timers s).
Proof.
  cbv zeta.
  assert (Hstart : Behaviour.worded (messages (initial loadTime))
                   /\ Behaviour.worded (timers (initial loadTime))).
  { split; repeat constructor. cbn. discriminate. }
  revert Hstart. generalize (initial loadTime).
  induction events as [|e rest IH]; intros s H; cbn [run].
  - exact H.
  - apply IH. apply on_worded, H.
Qed.

Lemma extends_refl {A : Type} (l : list A) : Behaviour.extends l l.
Proof.
  exists []. rewrite app_nil_r. reflexivity.
Qed.

Lemma extends_trans {A : Type} (a b c : list A) :
  Behaviour.extends a b -> Behaviour.extends b c -> Behaviour.extends a c.
Proof.
  intros [x ->] [y ->]. exists (x ++ y). rewrite app_assoc. reflexivity.
Qed.

Lemma handleSend_extends (textToSend : option string)
  (userStamp botStamp : Stamp.t) (reply : completion SendChatResponse.t)
  (s : Chat) :
  Behaviour.extends (messages s)
    (messages (handleSend textToSend userStamp botStamp reply s)).
Proof.
  destruct s as [sid inp typing loading prompt msgs pending].
  step_chat.
  destruct (negb (truthy _)); [apply extends_refl|].
  destruct reply as [response|e].
  - destruct (present (SendChatResponse.sessionId response));
      destruct (present (SendChatResponse.followUpQuestion response) && _);
      cbn; eexists; reflexivity.
  - cbn. rewrite <- app_assoc. eexists; reflexivity.
Qed.

(** X9. The transcript only grows at its end: as long as the history is not
    loaded, every message once shown stays where it is, whatever is sent,
    whatever the calls answer and whichever timers run. *)
Theorem transcript_only_grows (events : list Event) (s : Chat) :
  forallb (fun e => negb (Behaviour.isLoadHistory e)) events = true ->
  Behaviour.extends (messages s)
    (messages (run B loadTime renderDate events s)).
Proof.
  revert s. induction events as [|e rest IH]; intros s Hall; cbn [run].
  - apply extends_refl.
  - cbn in Hall. apply andb_prop in Hall as [He Hrest].
    eapply extends_trans; [|apply IH, Hrest].
    destruct e; try discriminate He; cbn [on].
    + destruct s; apply extends_refl.
    + apply handleSend_extends.
    + unfold acceptFollowUp.
      destruct (followUpQuestion s) as [prompt|]; [|apply extends_refl].
      destruct (truthy prompt); [|apply extends_refl].
      eapply extends_trans; [|apply handleSend_extends].
      destruct s; apply extends_refl.
    + destruct s as [sid inp typing loading prompt msgs pending].
      step_chat. destruct pending; cbn; [apply extends_refl|].
      eexists; reflexivity.
Qed.

(** X10. Pressing send does nothing at all exactly when the input is
    empty; an input of blanks only is sent as it is. *)
Theorem send_is_idle_on_empty_input_only
  (userStamp botStamp : Stamp.t) (reply : completion SendChatResponse.t)
  (s : Chat) :
  (on B loadTime renderDate (Send userStamp botStamp reply) s = s
   <-> input s = "")
  /\ (input s <> "" ->
      exists more,
        messages (on B loadTime renderDate (Send userStamp botStamp reply) s)
        = messages s ++ Behaviour.userMessage userStamp (input s) :: more).
Proof.
  destruct s as [sid inp typing loading prompt msgs pending].
  cbn [on input messages].
  assert (Hsent : inp <> "" ->
            exists more,
              messages (handleSend (Some inp) userStamp botStamp reply
                          (mkChat sid inp typing loading prompt msgs pending))
              = msgs ++ Behaviour.userMessage userStamp inp :: more).
  { intros Hinp. apply truthy_true_iff in Hinp.
    step_chat. rewrite Hinp. cbn [negb]. cbv iota.
    destruct reply as [response|e].
    - destruct (present (SendChatResponse.sessionId response));
        destruct (present (SendChatResponse.followUpQuestion response) && _);
        cbn; exists []; reflexivity.
    - cbn. rewrite <- app_assoc. eexists. reflexivity. }
  split; [split|exact Hsent].
  - intros Hsame. destruct inp as [|c inp]; [reflexivity|].
    destruct Hsent as [more Hmore]; [discriminate|].
    rewrite Hsame in Hmore. cbn [messages] in Hmore.
    apply (f_equal (@length _)) in Hmore.
    rewrite length_app in Hmore. cbn in Hmore. lia.
  - intros ->. reflexivity.
Qed.

Lemma handleSend_sessionId (textToSend : option string)
  (userStamp botStamp : Stamp.t) (reply : completion SendChatResponse.t)
  (s : Chat) :
  let s' := handleSend textToSend userStamp botStamp reply s in
  sessionId s' = sessionId s
  \/ exists response,
       reply = Returned response
       /\ present (SendChatResponse.sessionId response) = true
       /\ sessionId s' = SendChatResponse.sessionId response.
Proof.
  destruct s as [sid inp typing loading prompt msgs pending].
  step_chat.
  destruct (negb (truthy _)); [left; reflexivity|].
  destruct reply as [response|e]; [|left; reflexivity].
  destruct (present (SendChatResponse.sessionId response)) eqn:Hid;
    destruct (present (SendChatResponse.followUpQuestion response) && _);
    cbn; try (left; reflexivity);
    right; exists response; auto.
Qed.

Lemma on_sessionId (e : Event) (s : Chat) :
  present (sessionId s) = true ->
  present (sessionId (on B loadTime renderDate e s)) = true.
Proof.
  intros H. destruct e; cbn [on].
  - destruct s; exact H.
  - destruct (handleSend_sessionId (Some (input s)) userStamp botStamp reply s)
      as [-> | (response & _ & Hid & ->)]; assumption.
  - unfold acceptFollowUp.
    destruct (followUpQuestion s) as [prompt|]; [|exact H].
    destruct (truthy prompt); [|exact H].
    destruct (handleSend_sessionId (Some prompt) userStamp botStamp reply
                (setFollowUpQuestion None s))
      as [-> | (response & _ & Hid & ->)]; [destruct s; exact H | exact Hid].
  - destruct s as [sid inp typing loading prompt msgs pending].
    step_chat. destruct pending; exact H.
  - destruct s as [sid inp typing loading prompt msgs pending].
    cbn in H. step_chat.
    destruct recent as [recentSession|]; [|destruct mounted1; exact H].
    destruct mounted1; cbn; [|exact H].
    destruct (present recentSession) eqn:Hfound; [|exact H].
    destruct fetched as [items|]; destruct mounted2; cbn; exact Hfound.
Qed.

(** X11. A session id, once the screen holds one, is never lost: whatever
    is sent and whatever the calls answer or fail with, the screen holds a
    session id that is not empty from then on. *)
Theorem session_id_is_never_cleared (events : list Event) (s : Chat) :
  present (sessionId s) = true ->
  present (sessionId (run B loadTime renderDate events s)) = true.
Proof.
  revert s. induction events as [|e rest IH]; intros s H; cbn [run].
  - exact H.
  - apply IH, on_sessionId, H.
Qed.

(** X12. Pressing the follow-up chip is the same as typing the prompt into
    the input and pressing send: the two leave the screen in the same
    state, whatever the call answers. *)
Theorem accepting_a_prompt_is_sending_it
  (userStamp botStamp : Stamp.t) (reply : completion SendChatResponse.t)
  (prompt : string) (s : Chat) :
  followUpQuestion s = Some prompt ->
  prompt <> "" ->
  on B loadTime renderDate (AcceptFollowUp userStamp botStamp reply) s
  = run B loadTime renderDate
      [ChangeText prompt; Send userStamp botStamp reply] s.
Proof.
  destruct s as [sid inp typing loading asked msgs pending].
  cbn [followUpQuestion]. intros -> Hprompt.
  apply truthy_true_iff in Hprompt.
  cbn [run on]. unfold acceptFollowUp. cbn [followUpQuestion].
  rewrite Hprompt. step_chat. rewrite Hprompt. cbn [negb]. cbv iota.
  destruct reply as [response|e]; [|reflexivity].
  destruct (present (SendChatResponse.sessionId response));
    destruct (present (SendChatResponse.followUpQuestion response) && _);
    reflexivity.
Qed.

(** X13. The scheduled bot messages reach the transcript in the order in
    which they were scheduled: after [k] timers the transcript has gained
    the first [k] scheduled messages, in order, and these are no longer
    scheduled; a timer with nothing scheduled changes nothing. *)
Theorem timers_run_in_order (k : nat) (s : Chat) :
  let s' := run B loadTime renderDate (repeat TimerFires k) s in
  messages s' = messages s ++ firstn k (timers s)
  /\ timers s' = skipn k (timers s)
  /\ sessionId s' = sessionId s
  /\ followUpQuestion s' = followUpQuestion s
  /\ input s' = input s.
Proof.
  cbv zeta. revert s. induction k as [|k IH]; intros s; cbn [repeat run].
  - rewrite app_nil_r. repeat split.
  - destruct (IH (on B loadTime renderDate TimerFires s))
      as (Hm & Ht & Hs & Hf & Hi).
    rewrite Hm, Ht, Hs, Hf, Hi. clear IH Hm Ht Hs Hf Hi.
    destruct s as [sid inp typing loading prompt msgs pending].
    cbn [on]. step_chat.
    destruct pending as [|botMsg later]; cbn.
    + rewrite firstn_nil, skipn_nil. repeat split.
    + rewrite <- app_assoc. repeat split.
Qed.












Lemma forEach_origin (now : string) (items : list ChatHistoryItem.t)
  (index : nat) (m : ChatMessage.t) :
  In m (forEach B renderDate now items index []) ->
  exists entry,
    In entry items
    /\ ChatMessage.time m
       = formatTimestamp renderDate now (ChatHistoryItem.timestamp entry)
    /\ ((ChatMessage.sender m = user
         /\ ChatMessage.text m = ChatHistoryItem.message entry)
        \/ (ChatMessage.sender m = bot
            /\ ChatHistoryItem.reply entry = Some (ChatMessage.text m))).
Proof.
  revert index.
  induction items as [|entry rest IH]; intros index; cbn [forEach].
  - intros [].
  - rewrite forEach_acc. intros H. apply in_app_or in H as [H|H].
    + exists entry. split; [left; reflexivity|].
      unfold visit in H.
      destruct (truthy (ChatHistoryItem.message entry));
        destruct (ChatHistoryItem.reply entry) as [reply|];
        try destruct (truthy reply); cbn in H;
        intuition (subst; cbn; auto).
    + destruct (IH _ H) as (entry' & Hin & Horigin).
      exists entry'. split; [right; exact Hin | exact Horigin].
Qed.

Lemma forEach_length (now : string) (items : list ChatHistoryItem.t)
  (index : nat) :
  length (forEach B renderDate now items index []) <= 2 * length items.
Proof.
  revert index.
  induction items as [|entry rest IH]; intros index; cbn [forEach length].
  - lia.
  - rewrite forEach_acc, length_app. specialize (IH (S index)).
    assert (length (visit B renderDate now [] entry index) <= 2).
    { unfold visit.
      destruct (truthy (ChatHistoryItem.message entry));
        destruct (ChatHistoryItem.reply entry) as [reply|];
        try destruct (truthy reply); cbn; lia. }
    lia.
Qed.

(** X15. A hydrated transcript shows nothing but the history or the
    greeting: each of its messages is the greeting, or the message of an
    entry shown as the user's, or the reply of an entry shown as the bot's,
    with the time of that entry; and it has at most two messages for each
    entry, and at least one message. *)
Theorem hydration_shows_the_history_only (now : string)
  (items : list ChatHistoryItem.t) :
  let shown := mapHistoryToMessages B loadTime renderDate now items in
  (forall m, In m shown ->
     In m (initialMessages loadTime)
     \/ exists entry,
          In entry items
          /\ ChatMessage.time m
             = formatTimestamp renderDate now (ChatHistoryItem.timestamp entry)
          /\ ((ChatMessage.sender m = user
               /\ ChatMessage.text m = ChatHistoryItem.message entry)
              \/ (ChatMessage.sender m = bot
                  /\ ChatHistoryItem.reply entry = Some (ChatMessage.text m))))
  /\ 1 <= length shown <= Nat.max 1 (2 * length items).
Proof.
  cbv zeta. unfold mapHistoryToMessages.
  pose proof (forEach_length now items 0) as Hlen.
  destruct (length (forEach B renderDate now items 0 []) =? 0)%nat eqn:E.
  - split; [intros m H; left; exact H|].
    change (length (initialMessages loadTime)) with 1. lia.
  - apply Nat.eqb_neq in E. split; [|lia].
    intros m H. right. eapply forEach_origin, H.
Qed.

Lemma handleSend_prompt (textToSend : option string)
  (userStamp botStamp : Stamp.t) (reply : completion SendChatResponse.t)
  (s : Chat) :
  followUpQuestion s <> Some "" ->
  followUpQuestion (handleSend textToSend userStamp botStamp reply s)
  <> Some "".
Proof.
  destruct s as [sid inp typing loading prompt msgs pending].
  cbn [followUpQuestion]. intros H. step_chat.
  destruct (negb (truthy _)); [exact H|].
  destruct reply as [response|e]; [|discriminate].
  destruct (SendChatResponse.followUpQuestion response) as [[|c q]|];
    destruct (present (SendChatResponse.sessionId response));
    cbn; try discriminate;
    match goal with
    | |- context [negb ?test] => destruct test
    end; cbn; discriminate.
Qed.

(** X25. A pending prompt is never the empty string: whatever happens on
    the chat screen since it was mounted, either no prompt is pending or
    the pending prompt has a text, so the chip is on display exactly when a
    prompt is pending. *)
Theorem pending_prompt_is_never_empty (events : list Event) :
  followUpQuestion (run B loadTime renderDate events (initial loadTime))
  <> Some "".
Proof.
  assert (Hstart : followUpQuestion (initial loadTime) <> Some "")
    by discriminate.
  revert Hstart. generalize (initial loadTime).
  induction events as [|e rest IH]; intros s H; cbn [run]; [exact H|].
  apply IH. clear IH. destruct e; cbn [on].
  - destruct s; exact H.
  - apply handleSend_prompt, H.
  - unfold acceptFollowUp.
    destruct (followUpQuestion s) as [prompt|] eqn:E; [|rewrite E; exact H].
    destruct (truthy prompt); [|rewrite E; exact H].
    apply handleSend_prompt. destruct s; discriminate.
  - destruct s as [sid inp typing loading prompt msgs pending].
    step_chat. destruct pending; exact H.
  - destruct s as [sid inp typing loading prompt msgs pending].
    cbn [followUpQuestion] in H. step_chat.
    destruct recent as [recentSession|]; [|destruct mounted1; exact H].
    destruct mounted1; cbn; [|exact H].
    destruct (present recentSession); [|exact H].
    destruct fetched as [items|]; destruct mounted2; exact H.
Qed.

End ChatScreenBehaviour.

Section ChatScreenExamples.

Import ChatScreen.

Lemma failed_send_shows_connection_error_witness :
  messages
    (handleSend (Some "hi") (Sample.stamp "1") (Sample.stamp "2")
       (sendChatMessage (fun _ => None)
          (Returned (mkResponse 500 "Internal Server Error" "oops")))
       (initial "10:00"))
  = initialMessages "10:00"
    ++ [Behaviour.userMessage (Sample.stamp "1") "hi";
        Behaviour.connectionError (Sample.stamp "2")].
Proof.
  refine (proj1 (failed_send_shows_connection_error (fun _ => None) "hi"
                   (Sample.stamp "1") (Sample.stamp "2")
                   (Returned (mkResponse 500 "Internal Server Error" "oops"))
                   (initial "10:00") _ _)).
  - discriminate.
  - intros r [= <-]. reflexivity.
Defined.

Lemma plain_text_body_is_the_reply_witness :
  timers
    (handleSend (Some "hi") (Sample.stamp "1") (Sample.stamp "2")
       (sendChatMessage (fun _ => None)
          (Returned (mkResponse 200 "OK" "Hello there")))
       (initial "10:00"))
  = [ChatMessage.mk "2" "Hello there" bot "10:00"].
Proof.
  refine (proj1 (plain_text_body_is_the_reply (fun _ => None) "hi"
                   (Sample.stamp "1") (Sample.stamp "2")
                   (mkResponse 200 "OK" "Hello there")
                   (initial "10:00") _ eq_refl eq_refl _));
    discriminate.
Defined.

Lemma load_history_touches_little_witness :
  sessionId
    (loadHistory Sample.builtins "10:00" (fun _ => None) "10:01"
       (Returned (Some "s-1")) (Raised NetworkFailure) true true
       (initial "10:00"))
  = Some "s-1".
Proof.
  destruct (proj2 (proj2 (proj2 (proj2 (proj2
              (load_history_touches_little Sample.builtins "10:00"
                 (fun _ => None) "10:01" (Returned (Some "s-1"))
                 (Raised NetworkFailure) true true (initial "10:00")))))))
    as (found & Hfound & _ & _ & Hid); [discriminate|].
  exact (eq_trans Hid (eq_sym (f_equal (fun c =>
           match c with Returned id => id | Raised _ => None end) Hfound))).
Defined.

Lemma transcript_only_grows_witness :
  Behaviour.extends (initialMessages "10:00")
    (messages
       (run Sample.builtins "10:00" (fun _ => None)
          [ChangeText "hi";
           Send (Sample.stamp "1") (Sample.stamp "2")
             (Returned (Sample.suggestion "More?"));
           TimerFires]
          (initial "10:00"))).
Proof.
  exact (transcript_only_grows Sample.builtins "10:00" (fun _ => None)
           [ChangeText "hi";
            Send (Sample.stamp "1") (Sample.stamp "2")
              (Returned (Sample.suggestion "More?"));
            TimerFires]
           (initial "10:00") eq_refl).
Defined.

Lemma send_is_idle_on_empty_input_only_witness :
  exists more,
    messages
      (on Sample.builtins "10:00" (fun _ => None)
         (Send (Sample.stamp "1") (Sample.stamp "2") (Raised NetworkFailure))
         (setInput "   " (initial "10:00")))
    = messages (initial "10:00")
      ++ Behaviour.userMessage (Sample.stamp "1") "   " :: more.
Proof.
  apply (proj2 (send_is_idle_on_empty_input_only Sample.builtins "10:00"
                  (fun _ => None)
                  (Sample.stamp "1") (Sample.stamp "2")
                  (Raised NetworkFailure)
                  (setInput "   " (initial "10:00")))).
  discriminate.
Defined.

Lemma session_id_is_never_cleared_witness :
  present
    (sessionId
       (run Sample.builtins "10:00" (fun _ => None)
          [ChangeText "hi";
           Send (Sample.stamp "1") (Sample.stamp "2") (Raised NetworkFailure);
           LoadHistory "10:01" (Returned None) (Raised NetworkFailure) true true]
          (setSessionId (Some "s-1") (initial "10:00"))))
  = true.
Proof.
  exact (session_id_is_never_cleared Sample.builtins "10:00" (fun _ => None)
           [ChangeText "hi";
            Send (Sample.stamp "1") (Sample.stamp "2") (Raised NetworkFailure);
            LoadHistory "10:01" (Returned None) (Raised NetworkFailure)
              true true]
           (setSessionId (Some "s-1") (initial "10:00")) eq_refl).
Defined.

Lemma accepting_a_prompt_is_sending_it_witness :
  on Sample.builtins "10:00" (fun _ => None)
    (AcceptFollowUp (Sample.stamp "1") (Sample.stamp "2")
       (Returned (Sample.suggestion "And then?")))
    (setFollowUpQuestion (Some "Want a quiz?") (initial "10:00"))
  = run Sample.builtins "10:00" (fun _ => None)
      [ChangeText "Want a quiz?";
       Send (Sample.stamp "1") (Sample.stamp "2")
         (Returned (Sample.suggestion "And then?"))]
      (setFollowUpQuestion (Some "Want a quiz?") (initial "10:00")).
Proof.
  refine (accepting_a_prompt_is_sending_it Sample.builtins "10:00"
            (fun _ => None) (Sample.stamp "1") (Sample.stamp "2")
            (Returned (Sample.suggestion "And then?")) "Want a quiz?"
            (setFollowUpQuestion (Some "Want a quiz?") (initial "10:00"))
            eq_refl _).
  discriminate.
Defined.


Lemma hydration_shows_the_history_only_witness :
  let entry := ChatHistoryItem.mk None "hi" (Some "hello") None in
  let m := ChatMessage.mk "history-0-bot" "hello" bot "10:01" in
  In m (initialMessages "10:00")
  \/ exists origin,
       In origin [entry]
       /\ ChatMessage.time m
          = formatTimestamp (fun _ => None) "10:01"
              (ChatHistoryItem.timestamp origin)
       /\ ((ChatMessage.sender m = user
            /\ ChatMessage.text m = ChatHistoryItem.message origin)
           \/ (ChatMessage.sender m = bot
               /\ ChatHistoryItem.reply origin = Some (ChatMessage.text m))).
Proof.
  intros entry m.
  apply (proj1 (hydration_shows_the_history_only Sample.builtins "10:00"
                  (fun _ => None) "10:01" [entry]) m).
  right. left. reflexivity.
Defined.

End ChatScreenExamples.

(** ** More on the exam screen *)

Lemma trimEnd_head (c : ascii) (rest : string) :
  isWhiteSpace c = false ->
  exists kept, trimEnd (String c rest) = String c kept.
Proof.
  intros Hc. cbn [trimEnd]. destruct (trimEnd rest).
  - rewrite Hc. eexists; reflexivity.
  - eexists; reflexivity.
Qed.

Lemma trimEnd_idempotent (s : string) : trimEnd (trimEnd s) = trimEnd s.
Proof.
  induction s as [|c rest IH]; [reflexivity|].
  cbn [trimEnd]. destruct (trimEnd rest) as [|d kept] eqn:E.
  - destruct (isWhiteSpace c) eqn:Hc; [reflexivity|].
    cbn [trimEnd]. rewrite Hc. reflexivity.
  - cbn [trimEnd] in *. rewrite IH. reflexivity.
Qed.

Lemma trimStart_head (s : string) :
  trimStart s = ""
  \/ exists c rest, trimStart s = String c rest /\ isWhiteSpace c = false.
Proof.
  induction s as [|c rest IH]; [left; reflexivity|].
  cbn [trimStart]. destruct (isWhiteSpace c) eqn:Hc; [exact IH|].
  right. exists c, rest. auto.
Qed.

Lemma trim_idempotent (s : string) : trim (trim s) = trim s.
Proof.
  unfold trim.
  destruct (trimStart_head s) as [-> | (c & rest & -> & Hc)]; [reflexivity|].
  destruct (trimEnd_head c rest Hc) as [kept Hkept].
  rewrite Hkept. cbn [trimStart]. rewrite Hc.
  rewrite <- Hkept. apply trimEnd_idempotent.
Qed.

Section ExamScreenBehaviour.

Import ExamScreen.

Variable B : Builtins.

Lemma on_idle (e : Event) (s : Screen) :
  Behaviour.idle (loading s) -> Behaviour.idle (loading (exec (on B e) s)).
Proof.
  destruct s as [form ct aa cq ans lar sm hs h ld sf al cl].
  cbn [loading]. intros H.
  pose proof H as (Ht & Hs & Ha & Hsm & Hh).
  assert (Hoff : Some false <> Some true) by discriminate.
  destruct e; step_handler; try exact H.
  - destruct reply; cbn; repeat split; assumption.
  - destruct (negb (truthy (StartForm.studentId sf))
              || negb (truthy (StartForm.examTemplateId sf)));
      [exact H|].
    destruct reply; cbn; repeat split; assumption.
  - destruct aa, cq; try exact H.
    destruct reply as [response|]; cbn;
      [destruct (SubmitAnswerResponse.nextQuestion response); cbn|];
      repeat split; assumption.
  - destruct aa; [|exact H].
    destruct reply; cbn; repeat split; assumption.
  - destruct (negb (truthy (trim hs))); [exact H|].
    destruct reply; cbn; repeat split; assumption.
Qed.

(** X16. No request is left marked as running: whatever happens on the
    exam screen since it was mounted, and whether the calls succeed or
    fail, every loading flag is off once the handlers have returned. *)
Theorem loading_flags_are_reset (events : list Event) :
  Behaviour.idle (loading (run B events initial)).
Proof.
  assert (Hstart : Behaviour.idle (loading initial))
    by (repeat split; discriminate).
  revert Hstart. generalize initial.
  induction events as [|e rest IH]; intros s H; cbn [run].
  - exact H.
  - apply IH, on_idle, H.
Qed.

(** X18. A handler never repeats a call: every event on the exam screen
    makes at most one call and shows at most one alert, failures included.
    Editing a form field makes no call, shows no alert and leaves the
    workflow alone; and the template form is changed by its own fields
    only, so the clamping of a created template is not written back to
    it. *)
Theorem events_make_at_most_one_call (e : Event) (s : Screen) :
  let s' := exec (on B e) s in
  (exists made, calls s' = calls s ++ made /\ length made <= 1)
  /\ (exists shown, alerts s' = alerts s ++ shown /\ length shown <= 1)
  /\ (Behaviour.isEdit e = true ->
      calls s' = calls s /\ alerts s' = alerts s /\ workflow s' = workflow s)
  /\ ((forall field value, e <> TemplateChange field value) ->
      templatePayload s' = templatePayload s).
Proof.
  destruct s as [form ct aa cq ans lar sm hs h ld sf al cl].
  assert (Hnone : forall (A : Type) (l : list A),
            exists more, l = l ++ more /\ length more <= 1).
  { intros A l. exists []. rewrite app_nil_r. split; [reflexivity | cbn; lia]. }
  assert (Hone : forall (A : Type) (l : list A) (x : A),
            exists more, l ++ [x] = l ++ more /\ length more <= 1).
  { intros A l x. exists [x]. split; [reflexivity | cbn; lia]. }
  destruct e; step_handler; unfold workflow; cbn.
  - repeat split; auto. intros H. destruct (H field value eq_refl).
  - destruct reply; cbn; repeat split; auto; discriminate.
  - repeat split; auto.
  - repeat split; auto.
  - destruct (negb (truthy (StartForm.studentId sf))
              || negb (truthy (StartForm.examTemplateId sf))); cbn;
      [|destruct reply; cbn]; repeat split; auto; discriminate.
  - repeat split; auto.
  - repeat split; auto.
  - repeat split; auto.
  - destruct aa, cq; cbn;
      try (repeat split; auto; discriminate).
    destruct reply as [response|]; cbn;
      [destruct (SubmitAnswerResponse.nextQuestion response); cbn|];
      repeat split; auto; discriminate.
  - destruct aa; cbn; [destruct reply; cbn|];
      repeat split; auto; discriminate.
  - repeat split; auto.
  - destruct (negb (truthy (trim hs))); cbn; [|destruct reply; cbn];
      repeat split; auto; discriminate.
Qed.

(** X19. [handleFetchHistory] asks for the history of a student only
    when the id entered holds more than blanks; the id it sends is the
    entered one trimmed, so it is never empty and has no blanks around it;
    a successful call replaces the list shown, whatever it held. When the id
    is blank no call is made and an alert asks for a student id. *)
Theorem history_request_carries_a_trimmed_id
  (reply : completion (list ExamHistoryEntry.t)) (s : Screen) :
  let s' := exec (handleFetchHistory reply) s in
  (trim (historyStudentId s) = "" ->
   calls s' = calls s
   /\ alerts s' = alerts s ++ [("Missing student", "Enter a student ID")]
   /\ history s' = history s)
  /\ (trim (historyStudentId s) <> "" ->
      exists studentId,
        studentId = trim (historyStudentId s)
        /\ calls s' = calls s ++ [getExamHistory studentId]
        /\ studentId <> ""
        /\ trim studentId = studentId
        /\ (forall entries, reply = Returned entries -> history s' = entries)
        /\ (forall e, reply = Raised e -> history s' = history s)).
Proof.
  destruct s as [form ct aa cq ans lar sm hs h ld sf al cl].
  cbn [historyStudentId calls alerts history]. cbv zeta. split.
  - intros Hblank. step_handler. rewrite Hblank. cbn. repeat split.
  - intros Hid. exists (trim hs).
    pose proof Hid as Htruthy. apply truthy_true_iff in Htruthy.
    step_handler. rewrite Htruthy. cbn [negb]. cbv iota.
    destruct reply as [entries|e]; cbn;
      (split; [reflexivity|]); (split; [reflexivity|]); (split; [exact Hid|]);
      (split; [apply trim_idempotent|]); split; congruence.
Qed.

(** X20. [handleStartExam] checks the two fields as they were typed but
    sends the student id trimmed: the call is made exactly when both fields
    are not empty, and a student id of blanks only passes the check and is
    sent as the empty string. When a field is empty no call is made, an
    alert says so and the workflow is left alone. *)
Theorem start_request_checks_untrimmed_fields
  (reply : completion StartExamResponse.t) (s : Screen) :
  let s' := exec (handleStartExam B reply) s in
  let typed := startForm s in
  (StartForm.studentId typed = "" \/ StartForm.examTemplateId typed = "" ->
   calls s' = calls s
   /\ alerts s'
      = alerts s ++ [("Missing data", "Student ID and template ID are required")]
   /\ workflow s' = workflow s)
  /\ (StartForm.studentId typed <> "" ->
      StartForm.examTemplateId typed <> "" ->
      calls s'
      = calls s
        ++ [startExam
              (StartExamRequest.mk (trim (StartForm.studentId typed))
                 (toNumber B (StartForm.examTemplateId typed)))]
      /\ isFinite (toNumber B (StartForm.examTemplateId typed)) = true).
Proof.
  destruct s as [form ct aa cq ans lar sm hs h ld sf al cl].
  cbn [startForm calls alerts]. cbv zeta. split.
  - intros Hempty. step_handler. unfold workflow.
    assert (Hgate : negb (truthy (StartForm.studentId sf))
                    || negb (truthy (StartForm.examTemplateId sf)) = true).
    { destruct Hempty as [-> | ->]; cbn; [reflexivity | apply orb_true_r]. }
    rewrite Hgate. cbn. repeat split.
  - intros Hid Htemplate.
    apply truthy_true_iff in Hid. apply truthy_true_iff in Htemplate.
    step_handler. rewrite Hid, Htemplate. cbn [negb orb]. cbv iota.
    split; [destruct reply; reflexivity | apply toNumber_finite].
Qed.


Lemma submitted_app (before after : list ApiCall) :
  Behaviour.submittedQuestions (before ++ after)
  = Behaviour.submittedQuestions before ++ Behaviour.submittedQuestions after.
Proof.
  unfold Behaviour.submittedQuestions. apply flat_map_app.
Qed.


Lemma submit_with_question (response : SubmitAnswerResponse.t) (s : Screen)
  (attempt : StartExamResponse.t) (q : ExamQuestion.t) :
  activeAttempt s = Some attempt ->
  currentQuestion s = Some q ->
  let s' := exec (handleSubmitAnswer B (Returned response)) s in
  Behaviour.submittedQuestions (calls s')
  = Behaviour.submittedQuestions (calls s) ++ [ExamQuestion.id q]
  /\ activeAttempt s' = Some attempt
  /\ currentQuestion s' = SubmitAnswerResponse.nextQuestion response
  /\ lastAnswerResponse s' = Some response
  /\ answerState s' = defaultAnswerState
  /\ (SubmitAnswerResponse.nextQuestion response = None -> summary s' = None).
Proof.
  destruct s as [form ct aa cq ans lar sm hs h ld sf al cl].
  cbn [activeAttempt currentQuestion calls]. intros -> ->. cbv zeta.
  step_handler.
  destruct (SubmitAnswerResponse.nextQuestion response) eqn:Hnext; cbn;
    rewrite submitted_app; repeat split; discriminate.
Qed.


(** X23. The summary can still be fetched once the attempt is complete:
    the response without a next question keeps the attempt, stores itself
    as the last answer, empties the summary and the answer form; and a
    fetch of the summary then asks for that attempt and stores what comes
    back, or keeps the summary empty when the call fails. *)
Theorem summary_is_fetched_after_completion
  (response : SubmitAnswerResponse.t) (s : Screen)
  (attempt : StartExamResponse.t) (q : ExamQuestion.t)
  (reply : completion ExamSummaryResponse.t) :
  activeAttempt s = Some attempt ->
  currentQuestion s = Some q ->
  SubmitAnswerResponse.nextQuestion response = None ->
  let completed := exec (handleSubmitAnswer B (Returned response)) s in
  let s' := exec (handleFetchSummary reply) completed in
  activeAttempt completed = Some attempt
  /\ lastAnswerResponse completed = Some response
  /\ summary completed = None
  /\ calls s'
     = calls completed ++ [getExamSummary (StartExamResponse.attemptId attempt)]
  /\ summary s'
     = match reply with
       | Returned data => Some data
       | Raised _ => None
       end.
Proof.
  intros Ha Hq Hnext. cbv zeta.
  destruct (submit_with_question response s attempt q Ha Hq)
    as (_ & Ha' & _ & Hlast & _ & Hsummary).
  specialize (Hsummary Hnext).
  split; [exact Ha'|]. split; [exact Hlast|]. split; [exact Hsummary|].
  revert Ha' Hsummary.
  generalize (exec (handleSubmitAnswer B (Returned response)) s).
  intros [form ct aa cq ans lar sm hs h ld sf al cl].
  cbn [activeAttempt summary calls]. intros -> ->.
  step_handler. destruct reply; cbn; split; reflexivity.
Qed.

(** X24. A new template ends the exam in progress: once it is created, a
    fetch of the summary makes no call and asks to start an attempt, the
    submit control is disabled and submitting does nothing. The last
    answer's result is the one cell of the old attempt that is kept. *)
Theorem new_template_ends_the_attempt
  (created : ExamTemplateResponse.t) (s : Screen) :
  let s1 := exec (handleCreateTemplate B (Returned created)) s in
  (forall reply,
     let s2 := exec (handleFetchSummary reply) s1 in
     calls s2 = calls s1
     /\ alerts s2 = alerts s1 ++ [("No attempt", "Start an exam attempt first")]
     /\ workflow s2 = workflow s1)
  /\ (forall reply, exec (handleSubmitAnswer B reply) s1 = s1)
  /\ disableAnswerSubmit s1 = true
  /\ lastAnswerResponse s1 = lastAnswerResponse s
  /\ history s1 = history s.
Proof.
  destruct s as [form ct aa cq ans lar sm hs h ld sf al cl].
  cbv zeta. step_handler. cbn. unfold workflow.
  split; [intros reply; step_handler; cbn; repeat split|].
  split; [intros reply; step_handler; reflexivity|].
  repeat split.
Qed.

(** X26. Each cell of the workflow has its own writers. The created
    template changes only when a template is created; the attempt only when
    a template is created or an exam started; the result of the last answer
    only when an exam is started or an answer accepted; the history only
    when a history is fetched; and none of them changes when the call
    fails. *)
Theorem workflow_cells_have_their_writers (e : Event) (s : Screen) :
  let s' := exec (on B e) s in
  (createdTemplate s' <> createdTemplate s ->
   exists created, e = CreateTemplate (Returned created))
  /\ (activeAttempt s' <> activeAttempt s ->
      (exists created, e = CreateTemplate (Returned created))
      \/ exists started, e = StartExam (Returned started))
  /\ (lastAnswerResponse s' <> lastAnswerResponse s ->
      (exists started, e = StartExam (Returned started))
      \/ exists response, e = SubmitAnswer (Returned response))
  /\ (history s' <> history s ->
      exists entries, e = FetchHistory (Returned entries)).
Proof.
  destruct s as [form ct aa cq ans lar sm hs h ld sf al cl].
  destruct e; step_handler;
    try (repeat split; intros H; destruct (H eq_refl)).
  - destruct reply; cbn; repeat split; intros H;
      try destruct (H eq_refl); eauto.
  - destruct (negb (truthy (StartForm.studentId sf))
              || negb (truthy (StartForm.examTemplateId sf))); cbn;
      [|destruct reply; cbn]; repeat split; intros H;
      try destruct (H eq_refl); eauto.
  - destruct aa, cq; cbn;
      try (repeat split; intros H; destruct (H eq_refl)).
    destruct reply as [response|]; cbn;
      [destruct (SubmitAnswerResponse.nextQuestion response); cbn|];
      repeat split; intros H; try destruct (H eq_refl); eauto.
  - destruct aa; cbn; [destruct reply; cbn|];
      repeat split; intros H; destruct (H eq_refl).
  - destruct (negb (truthy (trim hs))); cbn; [|destruct reply; cbn];
      repeat split; intros H; try destruct (H eq_refl); eauto.
Qed.

End ExamScreenBehaviour.

Section ExamScreenExamples.

Import ExamScreen.

Lemma events_make_at_most_one_call_witness :
  let s := Sample.answering (Sample.question MultipleChoice)
             defaultAnswerState in
  let s' := exec (on Sample.builtins (SelectOption (int 2))) s in
  calls s' = calls s /\ alerts s' = alerts s /\ workflow s' = workflow s.
Proof.
  exact (proj1 (proj2 (proj2 (events_make_at_most_one_call Sample.builtins
                                (SelectOption (int 2))
                                (Sample.answering
                                   (Sample.question MultipleChoice)
                                   defaultAnswerState))))
           eq_refl).
Defined.

Lemma history_request_carries_a_trimmed_id_witness :
  calls
    (exec (handleFetchHistory (Raised NetworkFailure))
       (exec (setHistoryStudentId "  student-001 ") initial))
  = [getExamHistory "student-001"].
Proof.
  destruct (proj2 (history_request_carries_a_trimmed_id
                     (Raised NetworkFailure)
                     (exec (setHistoryStudentId "  student-001 ") initial)))
    as (studentId & Hsent & Hcalls & _); [discriminate|].
  rewrite Hcalls, Hsent. reflexivity.
Defined.

Lemma start_request_checks_untrimmed_fields_witness :
  calls
    (exec (handleStartExam Sample.builtins (Raised NetworkFailure))
       (run Sample.builtins
          [StartFormStudentId "   "; StartFormExamTemplateId "7"] initial))
  = [startExam (StartExamRequest.mk "" (int 7))].
Proof.
  refine (proj1 (proj2 (start_request_checks_untrimmed_fields Sample.builtins
                          (Raised NetworkFailure)
                          (run Sample.builtins
                             [StartFormStudentId "   ";
                              StartFormExamTemplateId "7"] initial)) _ _));
    discriminate.
Defined.



Lemma summary_is_fetched_after_completion_witness :
  let completed :=
    exec (handleSubmitAnswer Sample.builtins (Returned Sample.lastAnswer))
      (Sample.answering (Sample.question ShortAnswer) defaultAnswerState) in
  let s' := exec (handleFetchSummary (Raised NetworkFailure)) completed in
  activeAttempt completed = Some Sample.attempt
  /\ lastAnswerResponse completed = Some Sample.lastAnswer
  /\ summary completed = None
  /\ calls s' = calls completed ++ [getExamSummary (int 42)]
  /\ summary s' = None.
Proof.
  exact (summary_is_fetched_after_completion Sample.builtins Sample.lastAnswer
           (Sample.answering (Sample.question ShortAnswer) defaultAnswerState)
           Sample.attempt (Sample.question ShortAnswer)
           (Raised NetworkFailure) eq_refl eq_refl eq_refl).
Defined.

Lemma workflow_cells_have_their_writers_witness :
  exists created,
    CreateTemplate (Returned Sample.template) = CreateTemplate (Returned created).
Proof.
  apply (proj1 (workflow_cells_have_their_writers Sample.builtins
                  (CreateTemplate (Returned Sample.template)) initial)).
  discriminate.
Defined.

End ExamScreenExamples.
